(** * V4L2 raw video demux (modules/access/v4l2/demux.c) and the packed YUV
      offsets helper (modules/video_filter/filter_picture.h)

    Shallow embedding of the capture set-up ([InitVideo]), the capture cycle
    ([Demux]), the teardown ([DemuxClose]) and [GetPackedYuvOffsets].

    Conventions.
    - C integers are [Z]; an unsigned 32-bit result is reduced with
      [u32]; signed [int] arithmetic whose result is not representable, and
      division by zero, are undefined in C and yield [None].
    - A pointer into the static table [v4l2_fmts] is the index of the entry
      ([nat]); the null pointer is [None].
    - What the kernel, libv4l2 and the functions of video.c answer is data of
      the model: a [v4l2_device] record for set-up, a [capture_world] record
      for one capture cycle.
    - Constants and macros that come from headers outside the two source
      files (<linux/videodev2.h>, VLC's include/, config.h, the C library's
      limits) are the fields of the classes [videodev2_h], [vlc_h] and
      [c_platform]; nothing is proved from their numeric values, only from
      the facts stated as hypotheses of the theorems that need them. *)

From Stdlib Require Import ZArith Bool Ascii String Lia.
From stdpp Require Import base option list gmap.

Local Open Scope Z_scope.

(** ** Header constants *)

(** <linux/videodev2.h>.  [V4L2_CAP_DEVICE_CAPS] and [V4L2_PIX_FMT_H264] are
    tested with [#ifdef] in demux.c: [None] is "not defined". *)
Class videodev2_h := {
  V4L2_CAP_VIDEO_CAPTURE : Z;
  V4L2_CAP_READWRITE : Z;
  V4L2_CAP_STREAMING : Z;
  V4L2_CAP_DEVICE_CAPS : option Z;
  V4L2_FMT_FLAG_EMULATED : Z;
  V4L2_FIELD_NONE : Z;
  V4L2_FIELD_TOP : Z;
  V4L2_FIELD_BOTTOM : Z;
  V4L2_FIELD_INTERLACED : Z;
  V4L2_FIELD_SEQ_TB : Z;
  V4L2_FIELD_SEQ_BT : Z;
  V4L2_FIELD_ALTERNATE : Z;
  V4L2_FIELD_INTERLACED_TB : Z;
  V4L2_FIELD_INTERLACED_BT : Z;
  V4L2_PIX_FMT_YUV420 : Z;
  V4L2_PIX_FMT_YVU420 : Z;
  V4L2_PIX_FMT_YUV422P : Z;
  V4L2_PIX_FMT_YUYV : Z;
  V4L2_PIX_FMT_UYVY : Z;
  V4L2_PIX_FMT_YVYU : Z;
  V4L2_PIX_FMT_VYUY : Z;
  V4L2_PIX_FMT_YUV411P : Z;
  V4L2_PIX_FMT_YUV410 : Z;
  V4L2_PIX_FMT_NV12 : Z;
  V4L2_PIX_FMT_NV21 : Z;
  V4L2_PIX_FMT_RGB32 : Z;
  V4L2_PIX_FMT_BGR32 : Z;
  V4L2_PIX_FMT_RGB24 : Z;
  V4L2_PIX_FMT_BGR24 : Z;
  V4L2_PIX_FMT_RGB565 : Z;
  V4L2_PIX_FMT_RGB565X : Z;
  V4L2_PIX_FMT_RGB555 : Z;
  V4L2_PIX_FMT_RGB555X : Z;
  V4L2_PIX_FMT_JPEG : Z;
  V4L2_PIX_FMT_H264 : option Z;
  V4L2_PIX_FMT_MPEG4 : Z;
  V4L2_PIX_FMT_XVID : Z;
  V4L2_PIX_FMT_H263 : Z;
  V4L2_PIX_FMT_MPEG2 : Z;
  V4L2_PIX_FMT_MPEG1 : Z;
  V4L2_PIX_FMT_VC1_ANNEX_G : Z;
  V4L2_PIX_FMT_VC1_ANNEX_L : Z;
  V4L2_PIX_FMT_MJPEG : Z;
  V4L2_PIX_FMT_GREY : Z
}.

(** VLC's own headers (vlc_common.h, vlc_fourcc.h, vlc_block.h, vlc_vout.h),
    which are not part of the two files embedded here, and the one function
    of the core that [var_InheritFourCC] calls. *)
Class vlc_h := {
  VLC_SUCCESS : Z;
  VLC_ENOMEM : Z;
  VLC_EGENERIC : Z;
  VLC_FOURCC : ascii -> ascii -> ascii -> ascii -> Z;
  (** [vlc_fourcc_GetCodecFromString (VIDEO_ES, str)] of src/misc/fourcc.c *)
  vlc_fourcc_GetCodecFromString : string -> Z;
  VLC_CODEC_I420 : Z;
  VLC_CODEC_YV12 : Z;
  VLC_CODEC_I422 : Z;
  VLC_CODEC_YUYV : Z;
  VLC_CODEC_UYVY : Z;
  VLC_CODEC_YVYU : Z;
  VLC_CODEC_VYUY : Z;
  VLC_CODEC_I411 : Z;
  VLC_CODEC_I410 : Z;
  VLC_CODEC_NV12 : Z;
  VLC_CODEC_NV21 : Z;
  VLC_CODEC_RGB32 : Z;
  VLC_CODEC_RGB24 : Z;
  VLC_CODEC_RGB16 : Z;
  VLC_CODEC_RGB15 : Z;
  VLC_CODEC_MJPG : Z;
  VLC_CODEC_H264 : Z;
  VLC_CODEC_MP4V : Z;
  VLC_CODEC_H263 : Z;
  VLC_CODEC_MPGV : Z;
  VLC_CODEC_VC1 : Z;
  VLC_CODEC_GREY : Z;
  VOUT_ASPECT_FACTOR : Z;
  BLOCK_FLAG_TOP_FIELD_FIRST : Z;
  BLOCK_FLAG_BOTTOM_FIELD_FIRST : Z
}.

(** config.h and the C library: byte order of the build, <stdint.h>'s
    [SIZE_MAX], <errno.h>'s [EINTR] and [EAGAIN]. *)
Class c_platform := {
  WORDS_BIGENDIAN : bool;
  SIZE_MAX : Z;
  EINTR : Z;
  EAGAIN : Z
}.

(** ** Machine arithmetic *)

Definition u32 (x : Z) : Z := x mod 2 ^ 32.

Definition INT_MIN : Z := - 2 ^ 31.
Definition INT_MAX : Z := 2 ^ 31 - 1.

Definition in_int (x : Z) : bool := (INT_MIN <=? x) && (x <=? INT_MAX).

(** [int * int]: undefined on overflow. *)
Definition int_mul (a b : Z) : option Z :=
  if in_int (a * b) then Some (a * b) else None.

(** [int / int]: truncates toward zero; undefined for a zero divisor and for
    [INT_MIN / -1]. *)
Definition int_div (a b : Z) : option Z :=
  if b =? 0 then None
  else if in_int (Z.quot a b) then Some (Z.quot a b) else None.

(** [x & flag] used as a C truth value. *)
Definition has_flag (x flag : Z) : bool := negb (Z.land x flag =? 0).

(** ** Format catalog (demux.c, lines 100-226) *)

Record vlc_v4l2_fmt_t := {
  v4l2 : Z;
  vlc : Z;
  red : Z;
  green : Z;
  blue : Z
}.

Definition fmt_entry (v4l2_id vlc_id r g b : Z) : vlc_v4l2_fmt_t :=
  {| v4l2 := v4l2_id; vlc := vlc_id; red := r; green := g; blue := b |}.

Section Catalog.
Context `{!videodev2_h, !vlc_h, !c_platform}.

(** The "Packed RGB" rows, one variant per byte order. *)
Definition v4l2_fmts_rgb : list vlc_v4l2_fmt_t :=
  if WORDS_BIGENDIAN then
    [ fmt_entry V4L2_PIX_FMT_RGB32 VLC_CODEC_RGB32 0xFF00 0xFF0000 0xFF000000;
      fmt_entry V4L2_PIX_FMT_BGR32 VLC_CODEC_RGB32 0xFF000000 0xFF0000 0xFF00;
      fmt_entry V4L2_PIX_FMT_RGB24 VLC_CODEC_RGB24 0xFF0000 0x00FF00 0x0000FF;
      fmt_entry V4L2_PIX_FMT_BGR24 VLC_CODEC_RGB24 0x0000FF 0x00FF00 0xFF0000;
      fmt_entry V4L2_PIX_FMT_RGB565X VLC_CODEC_RGB16 0x001F 0x07E0 0xF800;
      fmt_entry V4L2_PIX_FMT_RGB555X VLC_CODEC_RGB15 0x001F 0x03E0 0x7C00 ]
  else
    [ fmt_entry V4L2_PIX_FMT_RGB32 VLC_CODEC_RGB32 0x0000FF 0x00FF00 0xFF0000;
      fmt_entry V4L2_PIX_FMT_BGR32 VLC_CODEC_RGB32 0xFF0000 0x00FF00 0x0000FF;
      fmt_entry V4L2_PIX_FMT_RGB24 VLC_CODEC_RGB24 0x0000FF 0x00FF00 0xFF0000;
      fmt_entry V4L2_PIX_FMT_BGR24 VLC_CODEC_RGB24 0xFF0000 0x00FF00 0x0000FF;
      fmt_entry V4L2_PIX_FMT_RGB565 VLC_CODEC_RGB16 0x001F 0x07E0 0xF800;
      fmt_entry V4L2_PIX_FMT_RGB555 VLC_CODEC_RGB15 0x001F 0x03E0 0x7C00 ].

(** The rows guarded by [#ifdef V4L2_PIX_FMT_H264]. *)
Definition v4l2_fmts_h264 : list vlc_v4l2_fmt_t :=
  match V4L2_PIX_FMT_H264 with
  | Some h264 =>
    [ fmt_entry h264 VLC_CODEC_H264 0 0 0;
      fmt_entry V4L2_PIX_FMT_MPEG4 VLC_CODEC_MP4V 0 0 0;
      fmt_entry V4L2_PIX_FMT_XVID VLC_CODEC_MP4V 0 0 0;
      fmt_entry V4L2_PIX_FMT_H263 VLC_CODEC_H263 0 0 0;
      fmt_entry V4L2_PIX_FMT_MPEG2 VLC_CODEC_MPGV 0 0 0;
      fmt_entry V4L2_PIX_FMT_MPEG1 VLC_CODEC_MPGV 0 0 0;
      fmt_entry V4L2_PIX_FMT_VC1_ANNEX_G VLC_CODEC_VC1 0 0 0;
      fmt_entry V4L2_PIX_FMT_VC1_ANNEX_L VLC_CODEC_VC1 0 0 0 ]
  | None => []
  end.

(** [static const vlc_v4l2_fmt_t v4l2_fmts[]], in order of decreasing
    preference. *)
Definition v4l2_fmts : list vlc_v4l2_fmt_t :=
  [ fmt_entry V4L2_PIX_FMT_YUV420 VLC_CODEC_I420 0 0 0;
    fmt_entry V4L2_PIX_FMT_YVU420 VLC_CODEC_YV12 0 0 0;
    fmt_entry V4L2_PIX_FMT_YUV422P VLC_CODEC_I422 0 0 0;
    fmt_entry V4L2_PIX_FMT_YUYV VLC_CODEC_YUYV 0 0 0;
    fmt_entry V4L2_PIX_FMT_UYVY VLC_CODEC_UYVY 0 0 0;
    fmt_entry V4L2_PIX_FMT_YVYU VLC_CODEC_YVYU 0 0 0;
    fmt_entry V4L2_PIX_FMT_VYUY VLC_CODEC_VYUY 0 0 0;
    fmt_entry V4L2_PIX_FMT_YUV411P VLC_CODEC_I411 0 0 0;
    fmt_entry V4L2_PIX_FMT_YUV410 VLC_CODEC_I410 0 0 0;
    fmt_entry V4L2_PIX_FMT_NV12 VLC_CODEC_NV12 0 0 0;
    fmt_entry V4L2_PIX_FMT_NV21 VLC_CODEC_NV21 0 0 0 ]
  ++ v4l2_fmts_rgb
  ++ [ fmt_entry V4L2_PIX_FMT_JPEG VLC_CODEC_MJPG 0 0 0 ]
  ++ v4l2_fmts_h264
  ++ [ fmt_entry V4L2_PIX_FMT_MJPEG VLC_CODEC_MJPG 0 0 0;
       fmt_entry V4L2_PIX_FMT_GREY VLC_CODEC_GREY 0 0 0 ].

(** The scan of [vlc_from_v4l2_fourcc]: [i] is the index of the head of
    [fmts] in the table. *)
Fixpoint find_v4l2_fourcc (fourcc : Z) (fmts : list vlc_v4l2_fmt_t) (i : nat)
  : option nat :=
  match fmts with
  | [] => None
  | f :: rest =>
    if v4l2 f =? fourcc then Some i else find_v4l2_fourcc fourcc rest (S i)
  end.

Definition vlc_from_v4l2_fourcc (fourcc : Z) : option nat :=
  find_v4l2_fourcc fourcc v4l2_fmts 0.

(** [dsc->vlc] and the like: the entry a table pointer designates. *)
Definition fmt_at (dsc : nat) : vlc_v4l2_fmt_t :=
  nth dsc v4l2_fmts (fmt_entry 0 0 0 0 0).

(** [vlc_v4l2_fmt_rank]: the two assertions hold for every pointer that
    [vlc_from_v4l2_fourcc] returns (lemma [vlc_from_v4l2_fourcc_lt]). *)
Definition vlc_v4l2_fmt_rank (fmt : option nat) : Z :=
  match fmt with
  | None => SIZE_MAX
  | Some d => Z.of_nat d
  end.

End Catalog.

(** ** Data of the set-up (structures of <linux/videodev2.h>, v4l2.h, vlc_es.h)

    Only the members demux.c reads or writes are kept; members that appear
    in debug messages alone (driver, card, description, ...) are left out. *)

(** [struct v4l2_fmtdesc]: one answer of [VIDIOC_ENUM_FMT]; [index] is the
    position in the enumeration. *)
Record v4l2_fmtdesc := {
  pixelformat : Z;
  flags : Z
}.

Record v4l2_capability := {
  capabilities : Z;
  device_caps : Z
}.

(** [fmt.fmt.pix] together with [parm.parm.capture.timeperframe], as
    [SetupFormat] leaves them. *)
Record v4l2_pix_format := {
  width : Z;
  height : Z;
  field : Z;
  sizeimage : Z;
  timeperframe_numerator : Z;
  timeperframe_denominator : Z
}.

Inductive io_method := IO_METHOD_READ | IO_METHOD_MMAP.

(** [struct buffer_t]: one mapped buffer ([start] and [length] in v4l2.h). *)
Record buffer_t := {
  buf_start : Z;
  buf_length : Z
}.

(** [demux_sys_t]; [p_buffers] is [None] for the null pointer. *)
Record demux_sys_t := {
  i_fd : Z;
  io : io_method;
  p_buffers : option (list buffer_t);
  i_nbuffers : nat;
  blocksize : Z;
  i_block_flags : Z;
  p_es : option nat;
  controls : option nat
}.

(** The members of [es_format_t] that [InitVideo] fills. *)
Record es_format_t := {
  i_codec : Z;
  i_rmask : Z;
  i_gmask : Z;
  i_bmask : Z;
  i_width : Z;
  i_height : Z;
  i_frame_rate : Z;
  i_frame_rate_base : Z;
  i_sar_num : Z;
  i_sar_den : Z
}.

(** What the device and the helpers of video.c answer during set-up. *)
Record v4l2_device := {
  (** [VIDIOC_QUERYCAP]; [None] when the ioctl fails. *)
  dev_querycap : option v4l2_capability;
  (** [SetupInput] returned zero. *)
  dev_setup_input : bool;
  (** The answers of [VIDIOC_ENUM_FMT] for index 0, 1, ... up to the first
      index for which the ioctl fails. *)
  dev_enum_fmt : list v4l2_fmtdesc;
  (** [SetupFormat] for a pixel format; [None] when it fails. *)
  dev_setup_format : Z -> option v4l2_pix_format;
  (** [InitMmap]: the mapped buffers; [None] when it fails. *)
  dev_init_mmap : option (list buffer_t);
  (** [VIDIOC_QBUF] on buffer [i] succeeded. *)
  dev_qbuf : nat -> bool;
  (** [VIDIOC_STREAMON] succeeded. *)
  dev_streamon : bool;
  (** The stream handle [es_out_Add] returns. *)
  dev_es_out_add : es_format_t -> option nat
}.

(** The configuration [InitVideo] inherits with [var_InheritString]: the
    strings of "v4l2-chroma" and "v4l2-aspect-ratio", [None] when the
    variable is unset (a null pointer). *)
Record v4l2_config := {
  cfg_chroma : option string;
  cfg_aspect_ratio : option string
}.

(** What [DemuxOpen] meets before and after [InitVideo]. *)
Record open_world := {
  (** [calloc] returned a block *)
  ow_calloc : bool;
  (** the string of "v4l2-dev"; [None] for a null pointer *)
  ow_path : option string;
  (** [vlc_open (path, O_RDWR)] *)
  ow_rawfd : Z;
  (** [v4l2_fd_open (rawfd, 0)] *)
  ow_fd : Z;
  ow_device : v4l2_device;
  ow_config : v4l2_config;
  (** [ControlsInit] *)
  ow_controls : option nat
}.

(** The [msg_Err] after which [InitVideo] returns -1 (or the helper that
    failed), and the undefined behaviour of the aspect-ratio arithmetic. *)
Inductive init_error :=
| Err_querycap
| Err_not_capture
| Err_no_io_method
| Err_setup_input
| Err_negotiate
| Err_setup_format
| Err_init_mmap
| Err_qbuf
| Err_streamon
| Undefined_arith.

Inductive outcome (A : Type) :=
| Ok (a : A)
| Fail (e : init_error).
Arguments Ok {A} a.
Arguments Fail {A} e.

Definition obind {A B} (m : outcome A) (k : A -> outcome B) : outcome B :=
  match m with
  | Ok a => k a
  | Fail e => Fail e
  end.

Notation "'do' x <- m ; k" := (obind m (fun x => k))
  (at level 10, x pattern, m at level 100, k at level 200).

Definition defined {A} (o : option A) : outcome A :=
  match o with
  | Some a => Ok a
  | None => Fail Undefined_arith
  end.

Definition or_fail {A} (e : init_error) (o : option A) : outcome A :=
  match o with
  | Some a => Ok a
  | None => Fail e
  end.

Definition check (e : init_error) (b : bool) : outcome unit :=
  if b then Ok tt else Fail e.

(** How one turn of a [for] loop ends. *)
Inductive loop_step (A : Type) :=
| Break (a : A)
| Continue (a : A).
Arguments Break {A} a.
Arguments Continue {A} a.

(** ** C library functions used on the aspect-ratio string *)

(** [strchr (s, c)] for a non-null [c]: the suffix that starts at the first
    [c]. *)
Fixpoint strchr (s : string) (c : ascii) : option string :=
  match s with
  | EmptyString => None
  | String a rest => if Ascii.eqb a c then Some s else strchr rest c
  end.

(** [p + 1] on a string that is not empty. *)
Definition str_next (s : string) : string :=
  match s with
  | EmptyString => EmptyString
  | String _ rest => rest
  end.

Definition isspace (c : ascii) : bool :=
  let n := N_of_ascii c in
  (n =? 32)%N || ((9 <=? n)%N && (n <=? 13)%N).

Definition digit_of (c : ascii) : option Z :=
  let n := Z.of_N (N_of_ascii c) in
  if (48 <=? n) && (n <=? 57) then Some (n - 48) else None.

Fixpoint skip_spaces (s : string) : string :=
  match s with
  | EmptyString => EmptyString
  | String c rest => if isspace c then skip_spaces rest else s
  end.

Fixpoint atoi_digits (s : string) (acc : Z) : Z :=
  match s with
  | EmptyString => acc
  | String c rest =>
    match digit_of c with
    | Some d => atoi_digits rest (10 * acc + d)
    | None => acc
    end
  end.

(** [atoi]: white space, an optional sign, decimal digits; undefined when the
    value is not an [int]. *)
Definition atoi (s : string) : option Z :=
  let t := skip_spaces s in
  let v :=
    match t with
    | String "-"%char rest => - atoi_digits rest 0
    | String "+"%char rest => atoi_digits rest 0
    | _ => atoi_digits t 0
    end in
  if in_int v then Some v else None.

(** ** Set-up: [InitVideo] (demux.c, lines 242-472) *)

Section Setup.
Context `{!videodev2_h, !vlc_h, !c_platform}.

(** [static vlc_fourcc_t var_InheritFourCC (obj, varname)] (lines 228-239)
    on the string of the variable; the [msg_Err] for a string that names no
    codec is a diagnostic only. *)
Definition var_InheritFourCC (str : option string) : Z :=
  match str with
  | None => 0
  | Some s => vlc_fourcc_GetCodecFromString s
  end.

(** Lines 259-273: the capability word that is tested. *)
Definition InitVideo_caps (cap : v4l2_capability) : Z :=
  match V4L2_CAP_DEVICE_CAPS with
  | Some device_caps_flag =>
    if has_flag (capabilities cap) device_caps_flag
    then device_caps cap
    else capabilities cap
  | None => capabilities cap
  end.

(** Lines 274-288: capture check and choice of [sys->io]. *)
Definition InitVideo_io (caps : Z) : outcome io_method :=
  if negb (has_flag caps V4L2_CAP_VIDEO_CAPTURE) then Fail Err_not_capture
  else if has_flag caps V4L2_CAP_STREAMING then Ok IO_METHOD_MMAP
  else if has_flag caps V4L2_CAP_READWRITE then Ok IO_METHOD_READ
  else Fail Err_no_io_method.

(** Lines 302-332: the body of the enumeration loop on one answer of
    [VIDIOC_ENUM_FMT].  The state is [(selected, native)]. *)
Definition enum_fmt_body (reqfourcc : Z) (codec : v4l2_fmtdesc)
  (selected : option nat) (native : bool) : loop_step (option nat * bool) :=
  match vlc_from_v4l2_fourcc (pixelformat codec) with
  | None => Continue (selected, native)
  | Some dsc =>
    if vlc (fmt_at dsc) =? reqfourcc then Break (Some dsc, native)
    else
      let emulated := has_flag (flags codec) V4L2_FMT_FLAG_EMULATED in
      if emulated && native then Continue (selected, native)
      else
        let native := if emulated then native else true in
        if vlc_v4l2_fmt_rank (Some dsc) >? vlc_v4l2_fmt_rank selected
        then Continue (selected, native)
        else Continue (Some dsc, native)
  end.

(** Lines 298-333: the loop over the enumeration; the result is [selected]
    when the loop is left. *)
Fixpoint enum_fmt_loop (reqfourcc : Z) (codecs : list v4l2_fmtdesc)
  (selected : option nat) (native : bool) : option nat :=
  match codecs with
  | [] => selected
  | codec :: rest =>
    match enum_fmt_body reqfourcc codec selected native with
    | Break (selected', _) => selected'
    | Continue (selected', native') =>
      enum_fmt_loop reqfourcc rest selected' native'
    end
  end.

(** Lines 294-333: picture format negotiation, from [selected = NULL] and
    [native = false]. *)
Definition InitVideo_negotiate (reqfourcc : Z) (codecs : list v4l2_fmtdesc)
  : option nat :=
  enum_fmt_loop reqfourcc codecs None false.

(** Lines 362-402: the [switch] on [fmt.fmt.pix.field].  Returns the new
    [sys->i_block_flags], the new [fmt.fmt.pix.height] and whether the
    [default] branch emitted its [msg_Warn]. *)
Definition InitVideo_interlacing (fld block_flags h : Z) : Z * Z * bool :=
  if fld =? V4L2_FIELD_NONE then (block_flags, h, false)
  else if fld =? V4L2_FIELD_TOP then (block_flags, h, false)
  else if fld =? V4L2_FIELD_BOTTOM then (block_flags, h, false)
  else if fld =? V4L2_FIELD_INTERLACED
       then (BLOCK_FLAG_TOP_FIELD_FIRST, h, false)
  else if fld =? V4L2_FIELD_SEQ_TB then (block_flags, h, false)
  else if fld =? V4L2_FIELD_SEQ_BT then (block_flags, h, false)
  else if fld =? V4L2_FIELD_ALTERNATE then (block_flags, u32 (h * 2), false)
  else if fld =? V4L2_FIELD_INTERLACED_TB
       then (BLOCK_FLAG_TOP_FIELD_FIRST, h, false)
  else if fld =? V4L2_FIELD_INTERLACED_BT
       then (BLOCK_FLAG_BOTTOM_FIELD_FIRST, h, false)
  else (block_flags, h, true).

(** Lines 416-424: the display aspect ratio [ar], scaled by
    [VOUT_ASPECT_FACTOR]; [None] when the C arithmetic is undefined. *)
Definition InitVideo_aspect (str : option string) : option Z :=
  f4 ← int_mul 4 VOUT_ASPECT_FACTOR;
  ar ← int_div f4 3;
  match str with
  | Some s =>
    match strchr s ":"%char with
    | Some delim =>
      w ← atoi s;
      h ← atoi (str_next delim);
      wf ← int_mul w VOUT_ASPECT_FACTOR;
      int_div wf h
    | None => Some ar
    end
  | None => Some ar
  end.

(** Lines 425-426: [i_sar_num] and [i_sar_den], both [unsigned]. *)
Definition InitVideo_sar_num (ar h : Z) : Z := u32 (ar * h).
Definition InitVideo_sar_den (w : Z) : Z := u32 (VOUT_ASPECT_FACTOR * w).

(** Lines 405-426: the stream descriptor that is published. *)
Definition InitVideo_es_fmt (selected : nat) (fmt : v4l2_pix_format)
  (h ar : Z) : es_format_t :=
  {| i_codec := vlc (fmt_at selected);
     i_rmask := red (fmt_at selected);
     i_gmask := green (fmt_at selected);
     i_bmask := blue (fmt_at selected);
     i_width := width fmt;
     i_height := h;
     i_frame_rate := timeperframe_denominator fmt;
     i_frame_rate_base := timeperframe_numerator fmt;
     i_sar_num := InitVideo_sar_num ar h;
     i_sar_den := InitVideo_sar_den (width fmt) |}.

(** Lines 434-469: initialisation of the I/O method. *)
Definition InitVideo_init_io (dev : v4l2_device) (sys : demux_sys_t)
  (fmt : v4l2_pix_format) : outcome demux_sys_t :=
  match io sys with
  | IO_METHOD_READ =>
    Ok {| i_fd := i_fd sys; io := io sys; p_buffers := p_buffers sys;
          i_nbuffers := i_nbuffers sys; blocksize := sizeimage fmt;
          i_block_flags := i_block_flags sys; p_es := p_es sys;
          controls := controls sys |}
  | IO_METHOD_MMAP =>
    do bufs <- or_fail Err_init_mmap (dev_init_mmap dev);
    do _ <- check Err_qbuf
              (forallb (dev_qbuf dev) (seq 0 (Datatypes.length bufs)));
    do _ <- check Err_streamon (dev_streamon dev);
    Ok {| i_fd := i_fd sys; io := io sys; p_buffers := Some bufs;
          i_nbuffers := Datatypes.length bufs; blocksize := blocksize sys;
          i_block_flags := i_block_flags sys; p_es := p_es sys;
          controls := controls sys |}
  end.

(** [static int InitVideo (demux_t *demux, int fd)].  On success the result
    carries the session state and the published stream descriptor; a [Fail]
    other than [Undefined_arith] is a [return -1]. *)
Definition InitVideo (dev : v4l2_device) (cfg : v4l2_config)
  (sys : demux_sys_t) : outcome (demux_sys_t * es_format_t) :=
  do cap <- or_fail Err_querycap (dev_querycap dev);
  do io_sel <- InitVideo_io (InitVideo_caps cap);
  do _ <- check Err_setup_input (dev_setup_input dev);
  do selected <- or_fail Err_negotiate
                   (InitVideo_negotiate (var_InheritFourCC (cfg_chroma cfg))
                      (dev_enum_fmt dev));
  do fmt <- or_fail Err_setup_format
              (dev_setup_format dev (v4l2 (fmt_at selected)));
  let '(block_flags, h, _) :=
    InitVideo_interlacing (field fmt) (i_block_flags sys) (height fmt) in
  do ar <- defined (InitVideo_aspect (cfg_aspect_ratio cfg));
  let es_fmt := InitVideo_es_fmt selected fmt h ar in
  do sys' <- InitVideo_init_io dev
               {| i_fd := i_fd sys; io := io_sel; p_buffers := p_buffers sys;
                  i_nbuffers := i_nbuffers sys; blocksize := blocksize sys;
                  i_block_flags := block_flags;
                  p_es := dev_es_out_add dev es_fmt;
                  controls := controls sys |}
               fmt;
  Ok (sys', es_fmt).

(** The value [InitVideo] returns. *)
Definition InitVideo_ret {A} (o : outcome A) : option Z :=
  match o with
  | Ok _ => Some 0
  | Fail Undefined_arith => None
  | Fail _ => Some (-1)
  end.

(** The block [calloc (1, sizeof (demux_sys_t))] returns: every member
    zero.  [io] is written by [InitVideo] before anything reads it. *)
Definition calloc_sys : demux_sys_t :=
  {| i_fd := 0; io := IO_METHOD_READ; p_buffers := None; i_nbuffers := 0;
     blocksize := 0; i_block_flags := 0; p_es := None; controls := None |}.

(** [int DemuxOpen (vlc_object_t *obj)] (lines 48-98): the value returned
    and the session that [demux->p_sys] keeps; [None] when [InitVideo] is
    undefined. *)
Definition DemuxOpen (w : open_world) : option (Z * option demux_sys_t) :=
  if negb (ow_calloc w) then Some (VLC_ENOMEM, None)
  else
    match ow_path w with
    | None => Some (VLC_EGENERIC, None)
    | Some _ =>
      if ow_rawfd w =? -1 then Some (VLC_EGENERIC, None)
      else
        let fd := if ow_fd w =? -1 then ow_rawfd w else ow_fd w in
        match InitVideo (ow_device w) (ow_config w) calloc_sys with
        | Fail Undefined_arith => None
        | Fail _ => Some (VLC_EGENERIC, None)
        | Ok (sys, _) =>
          Some (VLC_SUCCESS,
                Some {| i_fd := fd; io := io sys;
                        p_buffers := p_buffers sys;
                        i_nbuffers := i_nbuffers sys;
                        blocksize := blocksize sys;
                        i_block_flags := i_block_flags sys;
                        p_es := p_es sys;
                        controls := ow_controls w |})
        end
    end.

End Setup.

(** ** Teardown: [DemuxClose] (demux.c, lines 474-525) *)

(** The calls [DemuxClose] makes, in program order. *)
Inductive close_event :=
| Ev_dqbuf                 (* v4l2_ioctl (fd, VIDIOC_DQBUF, &buf) *)
| Ev_streamoff             (* v4l2_ioctl (fd, VIDIOC_STREAMOFF, &buf_type) *)
| Ev_free_start            (* free (p_buffers[0].start) *)
| Ev_munmap (i : nat)      (* v4l2_munmap (p_buffers[i].start, .length) *)
| Ev_free_buffers          (* free (p_buffers) *)
| Ev_controls_deinit       (* ControlsDeinit (obj, sys->controls) *)
| Ev_close (fd : Z)        (* v4l2_close (fd) *)
| Ev_free_sys.             (* free (sys) *)

(** Lines 480-503: "Stop video capture". *)
Definition DemuxClose_stop (sys : demux_sys_t) : list close_event :=
  match io sys with
  | IO_METHOD_READ => []
  | IO_METHOD_MMAP => replicate (i_nbuffers sys) Ev_dqbuf ++ [Ev_streamoff]
  end.

(** Lines 505-520: "Free Video Buffers". *)
Definition DemuxClose_free (sys : demux_sys_t) : list close_event :=
  match p_buffers sys with
  | Some _ =>
    match io sys with
    | IO_METHOD_READ => [Ev_free_start]
    | IO_METHOD_MMAP => map Ev_munmap (seq 0 (i_nbuffers sys))
    end ++ [Ev_free_buffers]
  | None => []
  end.

Definition DemuxClose (sys : demux_sys_t) : list close_event :=
  DemuxClose_stop sys ++ DemuxClose_free sys
  ++ [Ev_controls_deinit; Ev_close (i_fd sys); Ev_free_sys].

(** ** Capture cycle: [BlockRead] and [Demux] (demux.c, lines 555-614) *)

(** The members of [block_t] the cycle touches. *)
Record block_t := {
  i_buffer : Z;
  i_pts : Z;
  i_dts : Z;
  i_flags : Z
}.

(** One call of [poll (&ufd, 1, 500)]: its return value, [errno] after a
    failure, and [ufd.revents] after the call. *)
Record poll_result := {
  poll_ret : Z;
  poll_errno : Z;
  poll_revents : Z
}.

(** What the system answers during one call of [Demux]. *)
Record capture_world := {
  (** the answers of the successive [poll] calls *)
  w_polls : list poll_result;
  (** [block_Alloc (size)]; [None] for a null pointer *)
  w_block_alloc : option block_t;
  (** [v4l2_read]: return value and [errno] *)
  w_read_ret : Z;
  w_read_errno : Z;
  (** [GrabVideo] (video.c); [None] for a null pointer *)
  w_grab : option block_t;
  (** [mdate ()] *)
  w_mdate : Z
}.

(** What a cycle emits. *)
Inductive demux_event :=
| Msg_poll_error                          (* msg_Err "poll error" *)
| Msg_cannot_read                         (* msg_Err "cannot read frame" *)
| Es_out_set_pcr (pts : Z)                (* es_out_Control, ES_OUT_SET_PCR *)
| Es_out_send (es : option nat) (b : block_t).

(** How the [while (poll (..) == -1)] loop is left. *)
Inductive poll_exit :=
| Poll_fatal
| Poll_returned (revents : Z).

Section Capture.
Context `{!c_platform}.

(** Lines 590-595.  [None]: every scripted answer was an interrupted call,
    the loop is still polling. *)
Fixpoint Demux_poll (polls : list poll_result) : option poll_exit :=
  match polls with
  | [] => None
  | p :: rest =>
    if poll_ret p =? -1 then
      if negb (poll_errno p =? EINTR) then Some Poll_fatal
      else Demux_poll rest
    else Some (Poll_returned (poll_revents p))
  end.

(** [static block_t *BlockRead (vlc_object_t *obj, int fd, size_t size)]. *)
Definition BlockRead (w : capture_world) (size : Z)
  : option block_t * list demux_event :=
  match w_block_alloc w with
  | None => (None, [])
  | Some block =>
    if w_read_ret w =? -1 then
      if w_read_errno w =? EAGAIN then (None, [])
      else (None, [Msg_cannot_read])
    else
      (Some {| i_buffer := w_read_ret w; i_pts := i_pts block;
               i_dts := i_dts block; i_flags := i_flags block |}, [])
  end.

(** [static int Demux (demux_t *demux)]: the value returned and what was
    emitted; [None] while the poll loop has not been left. *)
Definition Demux (sys : demux_sys_t) (w : capture_world)
  : option (Z * list demux_event) :=
  match Demux_poll (w_polls w) with
  | None => None
  | Some Poll_fatal => Some (-1, [Msg_poll_error])
  | Some (Poll_returned revents) =>
    if revents =? 0 then Some (1, [])
    else
      let '(block, msgs) :=
        match io sys with
        | IO_METHOD_READ => BlockRead w (blocksize sys)
        | IO_METHOD_MMAP => (w_grab w, [])
        end in
      match block with
      | None => Some (1, msgs)
      | Some b =>
        let pts := w_mdate w in
        let b' := {| i_buffer := i_buffer b; i_pts := pts; i_dts := pts;
                     i_flags := Z.lor (i_flags b) (i_block_flags sys) |} in
        Some (1, msgs ++ [Es_out_set_pcr pts; Es_out_send (p_es sys) b'])
      end
  end.

End Capture.

(** ** [GetPackedYuvOffsets] (filter_picture.h, lines 47-77) *)

Section FilterPicture.
Context `{!vlc_h}.

(** The three [int *] arguments are addresses in a store of [int] objects;
    the result is the value returned and the store after the call. *)
Definition GetPackedYuvOffsets (i_chroma : Z)
  (i_y_offset i_u_offset i_v_offset : Z) (mem : gmap Z Z) : Z * gmap Z Z :=
  if (i_chroma =? VLC_FOURCC "U" "Y" "V" "Y")
     || (i_chroma =? VLC_FOURCC "U" "Y" "N" "V")
     || (i_chroma =? VLC_FOURCC "Y" "4" "2" "2")
     || (i_chroma =? VLC_FOURCC "c" "y" "u" "v")
  then (VLC_SUCCESS,
        <[i_v_offset := 2]> (<[i_u_offset := 0]> (<[i_y_offset := 1]> mem)))
  else if (i_chroma =? VLC_FOURCC "Y" "U" "Y" "2")
          || (i_chroma =? VLC_FOURCC "Y" "U" "N" "V")
  then (VLC_SUCCESS,
        <[i_v_offset := 3]> (<[i_u_offset := 1]> (<[i_y_offset := 0]> mem)))
  else if i_chroma =? VLC_FOURCC "Y" "V" "Y" "U"
  then (VLC_SUCCESS,
        <[i_v_offset := 1]> (<[i_u_offset := 3]> (<[i_y_offset := 0]> mem)))
  else (VLC_EGENERIC, mem).

(** The labels of [CASE_PACKED_YUV_422], which are the [case] labels of
    [GetPackedYuvOffsets]. *)
Definition CASE_PACKED_YUV_422 : list Z :=
  [ VLC_FOURCC "U" "Y" "V" "Y"; VLC_FOURCC "U" "Y" "N" "V";
    VLC_FOURCC "Y" "4" "2" "2"; VLC_FOURCC "c" "y" "u" "v";
    VLC_FOURCC "Y" "U" "Y" "2"; VLC_FOURCC "Y" "U" "N" "V";
    VLC_FOURCC "Y" "V" "Y" "U" ].

End FilterPicture.

(** ** One concrete build

    The header values of a little-endian Linux build (videodev2.h of Linux
    3.x, the include/ directory of VLC 2.x).  The examples that close this
    file instantiate the theorems with them. *)

(** [v4l2_fourcc (a, b, c, d)] of videodev2.h. *)
Definition v4l2_fourcc (a b c d : ascii) : Z :=
  Z.lor (Z.of_N (N_of_ascii a))
    (Z.lor (Z.shiftl (Z.of_N (N_of_ascii b)) 8)
       (Z.lor (Z.shiftl (Z.of_N (N_of_ascii c)) 16)
          (Z.shiftl (Z.of_N (N_of_ascii d)) 24))).

(** The fourcc a string of four characters spells, 0 for any other string
    (the alias table of fourcc.c is left out). *)
Definition fourcc_of_string (s : string) : Z :=
  match s with
  | String a (String b (String c (String d EmptyString))) =>
    v4l2_fourcc a b c d
  | _ => 0
  end.

Definition linux_videodev2_h : videodev2_h := {|
  V4L2_CAP_VIDEO_CAPTURE := 0x00000001;
  V4L2_CAP_READWRITE := 0x01000000;
  V4L2_CAP_STREAMING := 0x04000000;
  V4L2_CAP_DEVICE_CAPS := Some 0x80000000;
  V4L2_FMT_FLAG_EMULATED := 0x0002;
  V4L2_FIELD_NONE := 1;
  V4L2_FIELD_TOP := 2;
  V4L2_FIELD_BOTTOM := 3;
  V4L2_FIELD_INTERLACED := 4;
  V4L2_FIELD_SEQ_TB := 5;
  V4L2_FIELD_SEQ_BT := 6;
  V4L2_FIELD_ALTERNATE := 7;
  V4L2_FIELD_INTERLACED_TB := 8;
  V4L2_FIELD_INTERLACED_BT := 9;
  V4L2_PIX_FMT_YUV420 := v4l2_fourcc "Y" "U" "1" "2";
  V4L2_PIX_FMT_YVU420 := v4l2_fourcc "Y" "V" "1" "2";
  V4L2_PIX_FMT_YUV422P := v4l2_fourcc "4" "2" "2" "P";
  V4L2_PIX_FMT_YUYV := v4l2_fourcc "Y" "U" "Y" "V";
  V4L2_PIX_FMT_UYVY := v4l2_fourcc "U" "Y" "V" "Y";
  V4L2_PIX_FMT_YVYU := v4l2_fourcc "Y" "V" "Y" "U";
  V4L2_PIX_FMT_VYUY := v4l2_fourcc "V" "Y" "U" "Y";
  V4L2_PIX_FMT_YUV411P := v4l2_fourcc "4" "1" "1" "P";
  V4L2_PIX_FMT_YUV410 := v4l2_fourcc "Y" "U" "V" "9";
  V4L2_PIX_FMT_NV12 := v4l2_fourcc "N" "V" "1" "2";
  V4L2_PIX_FMT_NV21 := v4l2_fourcc "N" "V" "2" "1";
  V4L2_PIX_FMT_RGB32 := v4l2_fourcc "R" "G" "B" "4";
  V4L2_PIX_FMT_BGR32 := v4l2_fourcc "B" "G" "R" "4";
  V4L2_PIX_FMT_RGB24 := v4l2_fourcc "R" "G" "B" "3";
  V4L2_PIX_FMT_BGR24 := v4l2_fourcc "B" "G" "R" "3";
  V4L2_PIX_FMT_RGB565 := v4l2_fourcc "R" "G" "B" "P";
  V4L2_PIX_FMT_RGB565X := v4l2_fourcc "R" "G" "B" "R";
  V4L2_PIX_FMT_RGB555 := v4l2_fourcc "R" "G" "B" "O";
  V4L2_PIX_FMT_RGB555X := v4l2_fourcc "R" "G" "B" "Q";
  V4L2_PIX_FMT_JPEG := v4l2_fourcc "J" "P" "E" "G";
  V4L2_PIX_FMT_H264 := Some (v4l2_fourcc "H" "2" "6" "4");
  V4L2_PIX_FMT_MPEG4 := v4l2_fourcc "M" "P" "G" "4";
  V4L2_PIX_FMT_XVID := v4l2_fourcc "X" "V" "I" "D";
  V4L2_PIX_FMT_H263 := v4l2_fourcc "H" "2" "6" "3";
  V4L2_PIX_FMT_MPEG2 := v4l2_fourcc "M" "P" "G" "2";
  V4L2_PIX_FMT_MPEG1 := v4l2_fourcc "M" "P" "G" "1";
  V4L2_PIX_FMT_VC1_ANNEX_G := v4l2_fourcc "V" "C" "1" "G";
  V4L2_PIX_FMT_VC1_ANNEX_L := v4l2_fourcc "V" "C" "1" "L";
  V4L2_PIX_FMT_MJPEG := v4l2_fourcc "M" "J" "P" "G";
  V4L2_PIX_FMT_GREY := v4l2_fourcc "G" "R" "E" "Y"
|}.

Definition vlc2_h : vlc_h := {|
  VLC_SUCCESS := 0;
  VLC_ENOMEM := -1;
  VLC_EGENERIC := -666;
  VLC_FOURCC := v4l2_fourcc;
  vlc_fourcc_GetCodecFromString := fourcc_of_string;
  VLC_CODEC_I420 := v4l2_fourcc "I" "4" "2" "0";
  VLC_CODEC_YV12 := v4l2_fourcc "Y" "V" "1" "2";
  VLC_CODEC_I422 := v4l2_fourcc "I" "4" "2" "2";
  VLC_CODEC_YUYV := v4l2_fourcc "Y" "U" "Y" "2";
  VLC_CODEC_UYVY := v4l2_fourcc "U" "Y" "V" "Y";
  VLC_CODEC_YVYU := v4l2_fourcc "Y" "V" "Y" "U";
  VLC_CODEC_VYUY := v4l2_fourcc "V" "Y" "U" "Y";
  VLC_CODEC_I411 := v4l2_fourcc "I" "4" "1" "1";
  VLC_CODEC_I410 := v4l2_fourcc "I" "4" "1" "0";
  VLC_CODEC_NV12 := v4l2_fourcc "N" "V" "1" "2";
  VLC_CODEC_NV21 := v4l2_fourcc "N" "V" "2" "1";
  VLC_CODEC_RGB32 := v4l2_fourcc "R" "V" "3" "2";
  VLC_CODEC_RGB24 := v4l2_fourcc "R" "V" "2" "4";
  VLC_CODEC_RGB16 := v4l2_fourcc "R" "V" "1" "6";
  VLC_CODEC_RGB15 := v4l2_fourcc "R" "V" "1" "5";
  VLC_CODEC_MJPG := v4l2_fourcc "M" "J" "P" "G";
  VLC_CODEC_H264 := v4l2_fourcc "h" "2" "6" "4";
  VLC_CODEC_MP4V := v4l2_fourcc "m" "p" "4" "v";
  VLC_CODEC_H263 := v4l2_fourcc "H" "2" "6" "3";
  VLC_CODEC_MPGV := v4l2_fourcc "m" "p" "g" "v";
  VLC_CODEC_VC1 := v4l2_fourcc "V" "C" "-" "1";
  VLC_CODEC_GREY := v4l2_fourcc "G" "R" "E" "Y";
  VOUT_ASPECT_FACTOR := 432000;
  BLOCK_FLAG_TOP_FIELD_FIRST := 0x2000;
  BLOCK_FLAG_BOTTOM_FIELD_FIRST := 0x4000
|}.

Definition linux_lp64 : c_platform := {|
  WORDS_BIGENDIAN := false;
  SIZE_MAX := 2 ^ 64 - 1;
  EINTR := 4;
  EAGAIN := 11
|}.

(** Answers of [VIDIOC_ENUM_FMT] used in the examples. *)
Definition native_fmt (pix : Z) : v4l2_fmtdesc :=
  {| pixelformat := pix; flags := 0 |}.

Definition emulated_fmt (pix : Z) : v4l2_fmtdesc :=
  {| pixelformat := pix; flags := 0x0002 |}.

(** A device for the examples: capability word [cap], enumeration [codecs],
    and a [SetupFormat] that settles on 720x480 with interlacing [fld]. *)
Definition example_device (cap : Z) (codecs : list v4l2_fmtdesc) (fld : Z)
  : v4l2_device :=
  {| dev_querycap := Some {| capabilities := cap; device_caps := cap |};
     dev_setup_input := true;
     dev_enum_fmt := codecs;
     dev_setup_format := fun _ =>
       Some {| width := 720; height := 480; field := fld;
               sizeimage := 691200;
               timeperframe_numerator := 1001;
               timeperframe_denominator := 30000 |};
     dev_init_mmap :=
       Some [ {| buf_start := 4096; buf_length := 691200 |};
              {| buf_start := 696320; buf_length := 691200 |} ];
     dev_qbuf := fun _ => true;
     dev_streamon := true;
     dev_es_out_add := fun _ => Some 0%nat |}.

(** A memory-mapped session with two buffers, as [InitVideo] leaves it. *)
Definition mmap_session : demux_sys_t :=
  {| i_fd := 3; io := IO_METHOD_MMAP;
     p_buffers :=
       Some [ {| buf_start := 4096; buf_length := 691200 |};
              {| buf_start := 696320; buf_length := 691200 |} ];
     i_nbuffers := 2; blocksize := 0; i_block_flags := 0;
     p_es := Some 0%nat; controls := None |}.

(** A capture world whose [poll] answers are [polls]. *)
Definition example_world (polls : list poll_result) : capture_world :=
  {| w_polls := polls; w_block_alloc := None; w_read_ret := -1;
     w_read_errno := 11;
     w_grab := Some {| i_buffer := 691200; i_pts := 0; i_dts := 0;
                       i_flags := 0 |};
     w_mdate := 1000000 |}.

(** ** Vocabulary of the statements *)

Section Vocabulary.
Context `{!videodev2_h, !vlc_h, !c_platform}.

(** The enumerated encoding carries [V4L2_FMT_FLAG_EMULATED]. *)
Definition is_emulated (codec : v4l2_fmtdesc) : bool :=
  has_flag (flags codec) V4L2_FMT_FLAG_EMULATED.

(** The enumerated encoding is in the catalog and its output encoding is
    [reqfourcc]. *)
Definition matches_request (reqfourcc : Z) (codec : v4l2_fmtdesc) : bool :=
  match vlc_from_v4l2_fourcc (pixelformat codec) with
  | Some dsc => vlc (fmt_at dsc) =? reqfourcc
  | None => false
  end.

(** The enumerated encoding is in the catalog and is not emulated. *)
Definition recognized_native (codec : v4l2_fmtdesc) : bool :=
  match vlc_from_v4l2_fourcc (pixelformat codec) with
  | Some _ => negb (is_emulated codec)
  | None => false
  end.

(** Catalog ranks of the recognized encodings of an enumeration, in order. *)
Definition recognized_ranks (codecs : list v4l2_fmtdesc) : list nat :=
  omap (fun codec => vlc_from_v4l2_fourcc (pixelformat codec)) codecs.

(** The non-emulated encodings of an enumeration. *)
Definition natives (codecs : list v4l2_fmtdesc) : list v4l2_fmtdesc :=
  List.filter (fun codec => negb (is_emulated codec)) codecs.

(** [r] is the least element of [ranks] ([None] when there is none). *)
Definition least_of (r : option nat) (ranks : list nat) : Prop :=
  match r with
  | Some d => d ∈ ranks /\ Forall (fun x => (d <= x)%nat) ranks
  | None => ranks = []
  end.

(** The state in which the enumeration loop is after a prefix of the
    enumeration, or the [break] that ended it. *)
Fixpoint enum_fmt_prefix (reqfourcc : Z) (codecs : list v4l2_fmtdesc)
  (selected : option nat) (native : bool) : loop_step (option nat * bool) :=
  match codecs with
  | [] => Continue (selected, native)
  | codec :: rest =>
    match enum_fmt_body reqfourcc codec selected native with
    | Break st => Break st
    | Continue (selected', native') =>
      enum_fmt_prefix reqfourcc rest selected' native'
    end
  end.

(** No entry of the catalog has the null fourcc as output encoding (0 is what
    [var_InheritFourCC] returns when nothing is requested). *)
Definition catalog_codecs_nonzero : Prop :=
  Forall (fun f => vlc f <> 0) v4l2_fmts.

(** The interlacing modes of the table of section 4.3 of the specification,
    the flag the table gives for each, and whether the reported height is
    doubled. *)
Inductive interlacing_mode :=
| Progressive
| Top_field_only
| Bottom_field_only
| Interleaved
| Interleaved_top_bottom
| Interleaved_bottom_top
| Sequential_top_bottom
| Sequential_bottom_top
| Alternating_fields
| Unrecognized_mode.

Inductive frame_flag :=
| No_flag
| Top_field_first
| Bottom_field_first.

Definition spec_interlacing_flag (m : interlacing_mode) : frame_flag :=
  match m with
  | Top_field_only | Bottom_field_only | Progressive => No_flag
  | Interleaved => Top_field_first
  | Interleaved_top_bottom => Top_field_first
  | Interleaved_bottom_top => Bottom_field_first
  | Sequential_top_bottom | Sequential_bottom_top | Alternating_fields =>
    No_flag
  | Unrecognized_mode => No_flag
  end.

Definition spec_height_doubled (m : interlacing_mode) : bool :=
  match m with
  | Alternating_fields => true
  | _ => false
  end.

Definition spec_mode_diagnostic (m : interlacing_mode) : bool :=
  match m with
  | Unrecognized_mode => true
  | _ => false
  end.

(** The [enum v4l2_field] values the [switch] of [InitVideo] names. *)
Definition v4l2_field_cases : list Z :=
  [ V4L2_FIELD_NONE; V4L2_FIELD_TOP; V4L2_FIELD_BOTTOM;
    V4L2_FIELD_INTERLACED; V4L2_FIELD_SEQ_TB; V4L2_FIELD_SEQ_BT;
    V4L2_FIELD_ALTERNATE; V4L2_FIELD_INTERLACED_TB;
    V4L2_FIELD_INTERLACED_BT ].

(** [fld] is the value of [fmt.fmt.pix.field] that denotes mode [m]. *)
Definition field_denotes (fld : Z) (m : interlacing_mode) : Prop :=
  match m with
  | Progressive => fld = V4L2_FIELD_NONE
  | Top_field_only => fld = V4L2_FIELD_TOP
  | Bottom_field_only => fld = V4L2_FIELD_BOTTOM
  | Interleaved => fld = V4L2_FIELD_INTERLACED
  | Interleaved_top_bottom => fld = V4L2_FIELD_INTERLACED_TB
  | Interleaved_bottom_top => fld = V4L2_FIELD_INTERLACED_BT
  | Sequential_top_bottom => fld = V4L2_FIELD_SEQ_TB
  | Sequential_bottom_top => fld = V4L2_FIELD_SEQ_BT
  | Alternating_fields => fld = V4L2_FIELD_ALTERNATE
  | Unrecognized_mode => fld ∉ v4l2_field_cases
  end.

(** The value of [sys->i_block_flags] after the flag of the table has been
    applied to a session whose flags were [block_flags]. *)
Definition apply_frame_flag (f : frame_flag) (block_flags : Z) : Z :=
  match f with
  | No_flag => block_flags
  | Top_field_first => BLOCK_FLAG_TOP_FIELD_FIRST
  | Bottom_field_first => BLOCK_FLAG_BOTTOM_FIELD_FIRST
  end.

(** A capture world that differs in the answers of [poll] only. *)
Definition with_polls (w : capture_world) (polls : list poll_result)
  : capture_world :=
  {| w_polls := polls; w_block_alloc := w_block_alloc w;
     w_read_ret := w_read_ret w; w_read_errno := w_read_errno w;
     w_grab := w_grab w; w_mdate := w_mdate w |}.

(** A [poll] call that failed with [EINTR]. *)
Definition poll_interrupted (p : poll_result) : Prop :=
  poll_ret p = -1 /\ poll_errno p = EINTR.

(** After the call the three output objects hold [y], [u] and [v] and every
    other object of the store is as before. *)
Definition offsets_written (mem mem' : gmap Z Z)
  (i_y_offset i_u_offset i_v_offset y u v : Z) : Prop :=
  mem' !! i_y_offset = Some y
  /\ mem' !! i_u_offset = Some u
  /\ mem' !! i_v_offset = Some v
  /\ forall p, p <> i_y_offset -> p <> i_u_offset -> p <> i_v_offset ->
               mem' !! p = mem !! p.

End Vocabulary.

(** ** Control queries: [DemuxControl] (demux.c, lines 527-553) *)

(** The query codes of vlc_demux.h that [DemuxControl] names. *)
Class vlc_demux_h := {
  DEMUX_CAN_PAUSE : Z;
  DEMUX_CAN_SEEK : Z;
  DEMUX_CAN_CONTROL_PACE : Z;
  DEMUX_GET_PTS_DELAY : Z;
  DEMUX_GET_TIME : Z
}.

(** The objects the query arguments point to: a [bool] or an [int64_t]. *)
Inductive c_object :=
| Obj_bool (b : bool)
| Obj_int64 (z : Z).

Definition INT64_MIN : Z := - 2 ^ 63.
Definition INT64_MAX : Z := 2 ^ 63 - 1.

(** [int64_t * int64_t]: undefined on overflow. *)
Definition int64_mul (a b : Z) : option Z :=
  if (INT64_MIN <=? a * b) && (a * b <=? INT64_MAX) then Some (a * b)
  else None.

(** What the core answers during one query: the inherited integer
    "live-caching" and [mdate ()]. *)
Record control_world := {
  cw_live_caching : Z;
  cw_mdate : Z
}.

Section Control.
Context `{!vlc_h, !vlc_demux_h}.

(** [static int DemuxControl (demux_t *demux, int query, va_list args)]:
    [arg] is the pointer [va_arg] takes from [args]; the result is the value
    returned and the store after the call, [None] when the product of the
    delay is undefined. *)
Definition DemuxControl (cw : control_world) (query arg : Z)
  (mem : gmap Z c_object) : option (Z * gmap Z c_object) :=
  if (query =? DEMUX_CAN_PAUSE) || (query =? DEMUX_CAN_SEEK)
     || (query =? DEMUX_CAN_CONTROL_PACE)
  then Some (VLC_SUCCESS, <[arg := Obj_bool false]> mem)
  else if query =? DEMUX_GET_PTS_DELAY
  then
    delay ← int64_mul 1000 (cw_live_caching cw);
    Some (VLC_SUCCESS, <[arg := Obj_int64 delay]> mem)
  else if query =? DEMUX_GET_TIME
  then Some (VLC_SUCCESS, <[arg := Obj_int64 (cw_mdate cw)]> mem)
  else Some (VLC_EGENERIC, mem).

(** The [case] labels of [DemuxControl]. *)
Definition DemuxControl_cases : list Z :=
  [ DEMUX_CAN_PAUSE; DEMUX_CAN_SEEK; DEMUX_CAN_CONTROL_PACE;
    DEMUX_GET_PTS_DELAY; DEMUX_GET_TIME ].

End Control.

(** The query codes of VLC 2.x. *)
Definition vlc2_demux_h : vlc_demux_h := {|
  DEMUX_CAN_PAUSE := 0x1000;
  DEMUX_CAN_SEEK := 0x1005;
  DEMUX_CAN_CONTROL_PACE := 0x1003;
  DEMUX_GET_PTS_DELAY := 0x1002;
  DEMUX_GET_TIME := 3
|}.

(** A device opened through [DemuxOpen] in the examples. *)
Definition example_open (cap : Z) (codecs : list v4l2_fmtdesc) (fld : Z)
  (chroma : option string) : open_world :=
  {| ow_calloc := true; ow_path := Some "/dev/video0"%string;
     ow_rawfd := 3; ow_fd := -1;
     ow_device := example_device cap codecs fld;
     ow_config := {| cfg_chroma := chroma; cfg_aspect_ratio := None |};
     ow_controls := None |}.

(** The value of a successful step, [dflt] for a failed one. *)
Definition ok_or {A} (dflt : A) (o : outcome A) : A :=
  match o with
  | Ok a => a
  | Fail _ => dflt
  end.

(** A stream descriptor with every member zero. *)
Definition zero_es : es_format_t :=
  {| i_codec := 0; i_rmask := 0; i_gmask := 0; i_bmask := 0; i_width := 0;
     i_height := 0; i_frame_rate := 0; i_frame_rate_base := 0;
     i_sar_num := 0; i_sar_den := 0 |}.

(** A read session on 720x480 frames, as [DemuxOpen] leaves it. *)
Definition read_session : demux_sys_t :=
  {| i_fd := 3; io := IO_METHOD_READ; p_buffers := None; i_nbuffers := 0;
     blocksize := 691200; i_block_flags := 0; p_es := Some 0%nat;
     controls := None |}.

(** A memory-mapped session on interleaved bottom-top frames. *)
Definition bottom_top_session : demux_sys_t :=
  {| i_fd := 3; io := IO_METHOD_MMAP;
     p_buffers :=
       Some [ {| buf_start := 4096; buf_length := 691200 |};
              {| buf_start := 696320; buf_length := 691200 |} ];
     i_nbuffers := 2; blocksize := 0; i_block_flags := 0x4000;
     p_es := Some 0%nat; controls := None |}.

(** A capture world in which [poll] reports an event at once. *)
Definition ready_world (alloc : option block_t) (read_ret read_errno : Z)
  : capture_world :=
  {| w_polls := [ {| poll_ret := 1; poll_errno := 0; poll_revents := 1 |} ];
     w_block_alloc := alloc; w_read_ret := read_ret;
     w_read_errno := read_errno;
     w_grab := Some {| i_buffer := 691200; i_pts := 0; i_dts := 0;
                       i_flags := 1 |};
     w_mdate := 1000000 |}.

(** ** Further vocabulary *)

Section MoreVocabulary.
Context `{!videodev2_h, !vlc_h, !c_platform}.

(** The enumerated encoding is in the catalog. *)
Definition recognized (codec : v4l2_fmtdesc) : bool :=
  match vlc_from_v4l2_fourcc (pixelformat codec) with
  | Some _ => true
  | None => false
  end.

(** The buffer indices a teardown trace unmaps, in order. *)
Definition munmaps (tr : list close_event) : list nat :=
  omap (fun e => match e with Ev_munmap i => Some i | _ => None end) tr.

(** How many times a teardown trace asks for a buffer back. *)
Definition dqbufs (tr : list close_event) : nat :=
  Datatypes.length
    (List.filter (fun e => match e with Ev_dqbuf => true | _ => false end)
       tr).

(** The blocks a capture cycle sends. *)
Definition sent_blocks (evs : list demux_event) : list block_t :=
  omap (fun e => match e with Es_out_send _ b => Some b | _ => None end) evs.

(** The three colour masks select no common bit. *)
Definition masks_disjoint (r g b : Z) : Prop :=
  Z.land r g = 0 /\ Z.land r b = 0 /\ Z.land g b = 0.

End MoreVocabulary.

(** ** The catalog *)

Section CatalogFacts.
Context `{!videodev2_h, !vlc_h, !c_platform}.

Lemma v4l2_fmts_length : (Datatypes.length v4l2_fmts <= 28)%nat.
Proof.
  unfold v4l2_fmts, v4l2_fmts_rgb, v4l2_fmts_h264.
  destruct WORDS_BIGENDIAN, V4L2_PIX_FMT_H264; simpl; lia.
Qed.

Lemma find_v4l2_fourcc_bounds fourcc fmts i d :
  find_v4l2_fourcc fourcc fmts i = Some d ->
  (i <= d < i + Datatypes.length fmts)%nat.
Proof.
  revert i. induction fmts as [|f rest IH]; intros i; simpl; [discriminate|].
  destruct (v4l2 f =? fourcc).
  - intros [= <-]. lia.
  - intros Hd. apply IH in Hd. lia.
Qed.

Lemma find_v4l2_fourcc_nth fourcc fmts i d dflt :
  find_v4l2_fourcc fourcc fmts i = Some d ->
  v4l2 (nth (d - i) fmts dflt) = fourcc.
Proof.
  revert i. induction fmts as [|f rest IH]; intros i; simpl; [discriminate|].
  destruct (v4l2 f =? fourcc) eqn:E.
  - intros [= <-]. rewrite Nat.sub_diag. now apply Z.eqb_eq.
  - intros Hd. pose proof (find_v4l2_fourcc_bounds _ _ _ _ Hd) as Hb.
    replace (d - i)%nat with (S (d - S i)) by lia. now apply IH.
Qed.

(** The assertions of [vlc_v4l2_fmt_rank] hold on what the lookup returns. *)
Lemma vlc_from_v4l2_fourcc_lt fourcc d :
  vlc_from_v4l2_fourcc fourcc = Some d ->
  (d < Datatypes.length v4l2_fmts)%nat.
Proof.
  unfold vlc_from_v4l2_fourcc. intros Hd.
  apply find_v4l2_fourcc_bounds in Hd. lia.
Qed.

(** The lookup returns an entry whose device-native encoding is the one
    asked for. *)
Lemma vlc_from_v4l2_fourcc_v4l2 fourcc d :
  vlc_from_v4l2_fourcc fourcc = Some d -> v4l2 (fmt_at d) = fourcc.
Proof.
  unfold vlc_from_v4l2_fourcc, fmt_at. intros Hd.
  apply find_v4l2_fourcc_nth with (dflt := fmt_entry 0 0 0 0 0) in Hd.
  now rewrite Nat.sub_0_r in Hd.
Qed.

Lemma fmt_at_vlc_nonzero d :
  catalog_codecs_nonzero -> (d < Datatypes.length v4l2_fmts)%nat ->
  vlc (fmt_at d) <> 0.
Proof.
  unfold catalog_codecs_nonzero, fmt_at. intros Hnz Hd.
  rewrite List.Forall_forall in Hnz. apply Hnz. now apply nth_In.
Qed.

(** With nothing requested no enumerated encoding matches the request. *)
Lemma matches_request_null codec :
  catalog_codecs_nonzero -> matches_request 0 codec = false.
Proof.
  intros Hnz. unfold matches_request.
  destruct (vlc_from_v4l2_fourcc (pixelformat codec)) as [d|] eqn:E; [|done].
  apply Z.eqb_neq, fmt_at_vlc_nonzero; [done|].
  now apply vlc_from_v4l2_fourcc_lt in E.
Qed.

End CatalogFacts.

(** ** Format negotiation *)

Section Negotiation.
Context `{!videodev2_h, !vlc_h, !c_platform}.

Lemma list_first_split {A} (P : A -> bool) (l : list A) :
  (exists x, x ∈ l /\ P x = true) ->
  exists pre x post,
    l = pre ++ x :: post /\ Forall (fun y => P y = false) pre /\ P x = true.
Proof.
  induction l as [|a l IH]; intros (x & Hin & Hx).
  - now apply elem_of_nil in Hin.
  - destruct (P a) eqn:Ha.
    + exists [], a, l. repeat split; [constructor | done].
    + apply elem_of_cons in Hin as [-> | Hin]; [congruence|].
      destruct IH as (pre & y & post & -> & Hpre & Hy); [eauto|].
      exists (a :: pre), y, post. repeat split; [by constructor | done].
Qed.

Lemma enum_fmt_loop_prefix reqfourcc l1 l2 selected native :
  enum_fmt_loop reqfourcc (l1 ++ l2) selected native =
  match enum_fmt_prefix reqfourcc l1 selected native with
  | Break (selected', _) => selected'
  | Continue (selected', native') =>
    enum_fmt_loop reqfourcc l2 selected' native'
  end.
Proof.
  revert selected native. induction l1 as [|c l1 IH]; intros; simpl; [done|].
  destruct (enum_fmt_body reqfourcc c selected native) as [[s n]|[s n]];
    [done | apply IH].
Qed.

Lemma enum_fmt_body_match reqfourcc codec selected native :
  matches_request reqfourcc codec = true ->
  enum_fmt_body reqfourcc codec selected native =
  Break (vlc_from_v4l2_fourcc (pixelformat codec), native).
Proof.
  unfold matches_request, enum_fmt_body.
  destruct (vlc_from_v4l2_fourcc (pixelformat codec)); [|done].
  now intros ->.
Qed.

(** The body on an encoding that does not match the request, case by case. *)
Lemma enum_fmt_body_no_match reqfourcc codec selected native :
  matches_request reqfourcc codec = false ->
  enum_fmt_body reqfourcc codec selected native =
  match vlc_from_v4l2_fourcc (pixelformat codec) with
  | None => Continue (selected, native)
  | Some dsc =>
    if is_emulated codec && native then Continue (selected, native)
    else
      Continue
        (if vlc_v4l2_fmt_rank (Some dsc) >? vlc_v4l2_fmt_rank selected
         then selected else Some dsc,
         if is_emulated codec then native else true)
  end.
Proof.
  unfold matches_request, enum_fmt_body, is_emulated.
  destruct (vlc_from_v4l2_fourcc (pixelformat codec)); [|done].
  intros ->. destruct (_ && _); [done|]. now destruct (_ >? _).
Qed.

Lemma enum_fmt_prefix_no_match reqfourcc codecs selected native :
  Forall (fun c => matches_request reqfourcc c = false) codecs ->
  exists selected' native',
    enum_fmt_prefix reqfourcc codecs selected native =
    Continue (selected', native').
Proof.
  intros Hno. revert selected native.
  induction Hno as [|c l Hc _ IH]; intros; simpl; [eauto|].
  rewrite (enum_fmt_body_no_match _ _ _ _ Hc).
  destruct (vlc_from_v4l2_fourcc (pixelformat c)); [|apply IH].
  destruct (_ && _); apply IH.
Qed.

(** Once set, [native] stays set; an encoding that is recognized and not
    emulated sets it. *)
Lemma enum_fmt_body_native reqfourcc codec selected native selected' native' :
  enum_fmt_body reqfourcc codec selected native =
  Continue (selected', native') ->
  (native = true \/ recognized_native codec = true) -> native' = true.
Proof.
  unfold enum_fmt_body, recognized_native, is_emulated.
  destruct (vlc_from_v4l2_fourcc (pixelformat codec)).
  - destruct (_ =? reqfourcc); [done|].
    destruct (has_flag (flags codec) V4L2_FMT_FLAG_EMULATED), native; simpl;
      try destruct (_ >? _); intros [= _ <-]; intros [?|?]; done.
  - intros [= _ <-]. now intros [?|?].
Qed.

Lemma enum_fmt_prefix_native reqfourcc codecs selected native
  selected' native' :
  enum_fmt_prefix reqfourcc codecs selected native =
  Continue (selected', native') ->
  (native = true \/ exists c, c ∈ codecs /\ recognized_native c = true) ->
  native' = true.
Proof.
  revert selected native.
  induction codecs as [|c l IH]; intros selected native; simpl.
  - intros [= _ <-] [?|(c & Hin & _)]; [done|].
    now apply elem_of_nil in Hin.
  - destruct (enum_fmt_body reqfourcc c selected native) as [st|[s n]] eqn:E;
      [done|].
    intros Hrun Hnat. apply (IH _ _ Hrun).
    destruct Hnat as [Hn|(x & Hin & Hx)].
    + left. eapply enum_fmt_body_native; eauto.
    + apply elem_of_cons in Hin as [-> | Hin]; [|eauto].
      left. eapply enum_fmt_body_native; eauto.
Qed.

(** An emulated encoding that does not match the request leaves the state
    of the loop as it is when [native] is set. *)
Lemma enum_fmt_body_skip_emulated reqfourcc codec selected :
  is_emulated codec = true -> matches_request reqfourcc codec = false ->
  enum_fmt_body reqfourcc codec selected true = Continue (selected, true).
Proof.
  intros Hem Hno. rewrite (enum_fmt_body_no_match _ _ _ _ Hno), Hem.
  now destruct (vlc_from_v4l2_fourcc (pixelformat codec)).
Qed.

Lemma enum_fmt_loop_unrecognized reqfourcc codecs selected native :
  Forall (fun c => vlc_from_v4l2_fourcc (pixelformat c) = None) codecs ->
  enum_fmt_loop reqfourcc codecs selected native = selected.
Proof.
  intros Hno. revert selected native.
  induction Hno as [|c l Hc _ IH]; intros; simpl; [done|].
  unfold enum_fmt_body. rewrite Hc. apply IH.
Qed.

End Negotiation.

Section NegotiationRanks.
Context `{!videodev2_h, !vlc_h, !c_platform}.
Hypothesis SIZE_MAX_min : 65535 <= SIZE_MAX.

Lemma recognized_ranks_app l1 l2 :
  recognized_ranks (l1 ++ l2) = recognized_ranks l1 ++ recognized_ranks l2.
Proof. apply omap_app. Qed.

Lemma natives_app l1 l2 : natives (l1 ++ l2) = natives l1 ++ natives l2.
Proof. apply List.filter_app. Qed.

Lemma recognized_ranks_natives_none l :
  Forall (fun c => recognized_native c = false) l ->
  recognized_ranks (natives l) = [].
Proof.
  induction 1 as [|c l Hc _ IH]; [done|].
  unfold natives, recognized_ranks in *. simpl.
  unfold recognized_native in Hc.
  destruct (vlc_from_v4l2_fourcc (pixelformat c)) eqn:E.
  - rewrite Hc. exact IH.
  - destruct (negb (is_emulated c)); [|exact IH]. simpl. now rewrite E.
Qed.

(** The rank comparison of the loop keeps the least rank seen so far. *)
Lemma least_of_compare selected ranks d :
  least_of selected ranks -> (d < Datatypes.length v4l2_fmts)%nat ->
  least_of
    (if vlc_v4l2_fmt_rank (Some d) >? vlc_v4l2_fmt_rank selected
     then selected else Some d)
    (ranks ++ [d]).
Proof.
  intros Hsel Hd. pose proof v4l2_fmts_length as Hlen.
  destruct selected as [s|]; simpl in *.
  - destruct Hsel as [Hin Hle].
    destruct (Z.gtb_spec (Z.of_nat d) (Z.of_nat s)); simpl; split.
    + apply elem_of_app. now left.
    + apply Forall_app. split; [done|]. repeat constructor. lia.
    + apply elem_of_app. right. now apply list_elem_of_singleton.
    + apply Forall_app. split; [|repeat constructor].
      eapply Forall_impl; [exact Hle|]. simpl. intros. lia.
  - subst ranks. destruct (Z.gtb_spec (Z.of_nat d) SIZE_MAX); [lia|].
    simpl. split; [now apply list_elem_of_singleton | repeat constructor].
Qed.

(** Before the first recognized non-emulated encoding every recognized
    encoding takes part in the comparison and [native] stays unset. *)
Lemma enum_fmt_prefix_before_native reqfourcc pre selected ranks :
  Forall (fun c => matches_request reqfourcc c = false) pre ->
  Forall (fun c => recognized_native c = false) pre ->
  least_of selected ranks ->
  exists selected',
    enum_fmt_prefix reqfourcc pre selected false = Continue (selected', false)
    /\ least_of selected' (ranks ++ recognized_ranks pre).
Proof.
  intros Hno. revert selected ranks.
  induction Hno as [|c l Hc _ IH]; intros selected ranks Hnat Hsel.
  - exists selected. simpl. now rewrite app_nil_r.
  - apply Forall_cons in Hnat as [Hcn Hnat]. simpl.
    rewrite (enum_fmt_body_no_match _ _ _ _ Hc).
    unfold recognized_ranks. simpl. unfold recognized_native in Hcn.
    destruct (vlc_from_v4l2_fourcc (pixelformat c)) as [d|] eqn:E.
    + apply negb_false_iff in Hcn. rewrite Hcn, andb_false_r.
      apply vlc_from_v4l2_fourcc_lt in E.
      pose proof (least_of_compare _ _ d Hsel E) as Hstep.
      destruct (IH _ _ Hnat Hstep) as (s' & Hrun & Hleast).
      exists s'. split; [done|]. now rewrite <- app_assoc in Hleast.
    + now apply IH.
Qed.

(** Once [native] is set only the non-emulated recognized encodings take
    part in the comparison. *)
Lemma enum_fmt_loop_after_native reqfourcc codecs selected ranks :
  Forall (fun c => matches_request reqfourcc c = false) codecs ->
  least_of selected ranks ->
  least_of (enum_fmt_loop reqfourcc codecs selected true)
    (ranks ++ recognized_ranks (natives codecs)).
Proof.
  intros Hno. revert selected ranks.
  induction Hno as [|c l Hc _ IH]; intros selected ranks Hsel.
  - simpl. now rewrite app_nil_r.
  - simpl. rewrite (enum_fmt_body_no_match _ _ _ _ Hc).
    unfold natives, recognized_ranks. simpl.
    destruct (is_emulated c) eqn:Hem; simpl.
    + destruct (vlc_from_v4l2_fourcc (pixelformat c)); now apply IH.
    + destruct (vlc_from_v4l2_fourcc (pixelformat c)) as [d|] eqn:E.
      * apply vlc_from_v4l2_fourcc_lt in E.
        pose proof (IH _ _ (least_of_compare _ _ d Hsel E)) as Hstep.
        now rewrite <- app_assoc in Hstep.
      * now apply IH.
Qed.

(** The first recognized non-emulated encoding takes part in the comparison
    and sets [native]. *)
Lemma enum_fmt_loop_first_native reqfourcc n post selected ranks :
  Forall (fun c => matches_request reqfourcc c = false) (n :: post) ->
  recognized_native n = true ->
  least_of selected ranks ->
  least_of (enum_fmt_loop reqfourcc (n :: post) selected false)
    (ranks ++ recognized_ranks (natives (n :: post))).
Proof.
  intros Hno Hn Hsel. apply Forall_cons in Hno as [Hc Hno].
  simpl. rewrite (enum_fmt_body_no_match _ _ _ _ Hc).
  unfold recognized_native in Hn. unfold natives, recognized_ranks. simpl.
  destruct (vlc_from_v4l2_fourcc (pixelformat n)) as [d|] eqn:E; [|done].
  apply negb_true_iff in Hn. rewrite Hn. simpl. rewrite E.
  apply vlc_from_v4l2_fourcc_lt in E.
  pose proof (enum_fmt_loop_after_native reqfourcc post _ _ Hno
    (least_of_compare _ _ d Hsel E)) as Hstep.
  now rewrite <- app_assoc in Hstep.
Qed.

End NegotiationRanks.

(** ** [InitVideo] and [DemuxOpen] as a whole *)

Section SetupFacts.
Context `{!videodev2_h, !vlc_h, !c_platform}.

Lemma u32_small x : 0 <= x < 2 ^ 32 -> u32 x = x.
Proof. intros Hx. unfold u32. now apply Z.mod_small. Qed.

Lemma has_flag_false x flag : Z.land x flag = 0 -> has_flag x flag = false.
Proof. unfold has_flag. intros ->. reflexivity. Qed.

Lemma has_flag_true x flag : Z.land x flag <> 0 -> has_flag x flag = true.
Proof.
  unfold has_flag. intros Hx. apply negb_true_iff. now apply Z.eqb_neq.
Qed.

(** What a successful [InitVideo] went through. *)
Lemma InitVideo_Ok_inv dev cfg sys sys' es :
  InitVideo dev cfg sys = Ok (sys', es) ->
  exists cap selected fmt ar,
    dev_querycap dev = Some cap
    /\ InitVideo_io (InitVideo_caps cap) = Ok (io sys')
    /\ dev_setup_input dev = true
    /\ InitVideo_negotiate (var_InheritFourCC (cfg_chroma cfg))
      (dev_enum_fmt dev)
       = Some selected
    /\ dev_setup_format dev (v4l2 (fmt_at selected)) = Some fmt
    /\ InitVideo_aspect (cfg_aspect_ratio cfg) = Some ar
    /\ i_block_flags sys' =
       (InitVideo_interlacing (field fmt) (i_block_flags sys) (height fmt)).1.1
    /\ es = InitVideo_es_fmt selected fmt
              (InitVideo_interlacing (field fmt) (i_block_flags sys)
                 (height fmt)).1.2 ar.
Proof.
  unfold InitVideo. intros Hok.
  destruct (dev_querycap dev) as [cap|] eqn:Hcap; simpl in Hok; [|done].
  destruct (InitVideo_io (InitVideo_caps cap)) as [io_sel|] eqn:Hio;
    simpl in Hok; [|done].
  destruct (dev_setup_input dev) eqn:Hin; simpl in Hok; [|done].
  destruct (InitVideo_negotiate _ _) as [selected|] eqn:Hneg;
    simpl in Hok; [|done].
  destruct (dev_setup_format dev _) as [fmt|] eqn:Hfmt; simpl in Hok; [|done].
  destruct (InitVideo_interlacing _ _ _) as [[bf h] wn] eqn:Hil.
  destruct (InitVideo_aspect _) as [ar|] eqn:Har; simpl in Hok; [|done].
  exists cap, selected, fmt, ar. rewrite Hil. unfold InitVideo_init_io in Hok.
  destruct io_sel; simpl in Hok.
  - injection Hok as <- <-. simpl. done.
  - destruct (dev_init_mmap dev); simpl in Hok; [|done].
    destruct (forallb _ _); simpl in Hok; [|done].
    destruct (dev_streamon dev); simpl in Hok; [|done].
    injection Hok as <- <-. simpl. done.
Qed.

(** When every step that can fail succeeds, [InitVideo] returns 0; the
    interlacing mode is not among these steps. *)
Lemma InitVideo_succeeds dev cfg sys cap io_sel selected fmt ar :
  dev_querycap dev = Some cap ->
  InitVideo_io (InitVideo_caps cap) = Ok io_sel ->
  dev_setup_input dev = true ->
  InitVideo_negotiate (var_InheritFourCC (cfg_chroma cfg))
      (dev_enum_fmt dev) = Some selected ->
  dev_setup_format dev (v4l2 (fmt_at selected)) = Some fmt ->
  InitVideo_aspect (cfg_aspect_ratio cfg) = Some ar ->
  (io_sel = IO_METHOD_READ
   \/ exists bufs, dev_init_mmap dev = Some bufs
        /\ forallb (dev_qbuf dev) (seq 0 (Datatypes.length bufs)) = true
        /\ dev_streamon dev = true) ->
  InitVideo_ret (InitVideo dev cfg sys) = Some 0.
Proof.
  intros Hcap Hio Hin Hneg Hfmt Har Hinit. unfold InitVideo.
  rewrite Hcap. simpl. rewrite Hio. simpl. rewrite Hin. simpl.
  rewrite Hneg. simpl. rewrite Hfmt. simpl.
  destruct (InitVideo_interlacing _ _ _) as [[bf h] wn].
  rewrite Har. simpl. unfold InitVideo_init_io. simpl.
  destruct Hinit as [-> | (bufs & Hm & Hq & Hs)]; [done|].
  destruct io_sel; [done|]. rewrite Hm. simpl. rewrite Hq. simpl.
  now rewrite Hs.
Qed.

(** A session that [DemuxOpen] keeps is the one a successful [InitVideo]
    produced from the zeroed block. *)
Lemma DemuxOpen_session w r sys :
  DemuxOpen w = Some (r, Some sys) ->
  r = VLC_SUCCESS
  /\ exists sys0 es,
       InitVideo (ow_device w) (ow_config w) calloc_sys = Ok (sys0, es)
       /\ io sys = io sys0
       /\ i_block_flags sys = i_block_flags sys0
       /\ blocksize sys = blocksize sys0
       /\ p_buffers sys = p_buffers sys0
       /\ i_nbuffers sys = i_nbuffers sys0.
Proof.
  unfold DemuxOpen. destruct (ow_calloc w); simpl; [|done].
  destruct (ow_path w); [|done]. destruct (ow_rawfd w =? -1); [done|].
  destruct (InitVideo _ _ _) as [[sys0 es]|e]; [|by destruct e].
  intros [= <- <-]. split; [done|]. exists sys0, es. done.
Qed.

End SetupFacts.

(** ** Properties of the format negotiation *)

Section NegotiationClaims.
Context `{!videodev2_h, !vlc_h, !c_platform}.

(** C1, as amended.  With nothing requested ([var_InheritFourCC] returns 0,
    which is no catalog output encoding) and an enumeration that contains a
    recognized non-emulated encoding, let [n] be the first such encoding.
    Negotiation
    selects the lowest catalog rank among the recognized encodings
    enumerated before [n] (all of them emulated) and the recognized
    non-emulated encodings from [n] on; emulated encodings after [n] take no
    part.  The rank selected is therefore at most the rank of every
    recognized non-emulated encoding, and it is the lowest rank among them
    when no recognized encoding precedes [n].  A candidate whose rank equals
    the rank of the current selection is the same catalog entry, and the
    selection is left as it is. *)
Theorem C1_negotiation_lowest_rank :
  65535 <= SIZE_MAX -> catalog_codecs_nonzero ->
  (forall codecs : list v4l2_fmtdesc,
     (exists c, c ∈ codecs /\ recognized_native c = true) ->
     exists pre n post d,
       codecs = pre ++ n :: post
       /\ Forall (fun c => recognized_native c = false) pre
       /\ recognized_native n = true
       /\ InitVideo_negotiate (var_InheritFourCC None) codecs = Some d
       /\ least_of (Some d)
            (recognized_ranks pre ++ recognized_ranks (natives (n :: post)))
       /\ Forall (fun r => (d <= r)%nat) (recognized_ranks (natives codecs))
       /\ (recognized_ranks pre = [] ->
           least_of (Some d) (recognized_ranks (natives codecs))))
  /\ (forall reqfourcc codec dsc selected native,
        vlc_from_v4l2_fourcc (pixelformat codec) = Some dsc ->
        matches_request reqfourcc codec = false ->
        vlc_v4l2_fmt_rank (Some dsc) = vlc_v4l2_fmt_rank selected ->
        selected = Some dsc
        /\ exists native',
             enum_fmt_body reqfourcc codec selected native =
             Continue (selected, native')).
Proof.
  intros Hmax Hnz. split.
  - intros codecs Hex. change (var_InheritFourCC None) with 0.
    destruct (list_first_split recognized_native codecs Hex)
      as (pre & n & post & -> & Hpre & Hn).
    assert (Hno : forall l, Forall (fun c => matches_request 0 c = false) l).
    { intros l. apply List.Forall_forall. intros c _.
      now apply matches_request_null. }
    destruct (enum_fmt_prefix_before_native Hmax 0 pre None [] (Hno pre) Hpre)
      as (s & Hrun & Hs); [done|].
    pose proof (enum_fmt_loop_first_native Hmax 0 n post s _ (Hno _) Hn Hs)
      as Hleast.
    assert (Hres : InitVideo_negotiate 0 (pre ++ n :: post) =
                   enum_fmt_loop 0 (n :: post) s false).
    { unfold InitVideo_negotiate. now rewrite enum_fmt_loop_prefix, Hrun. }
    rewrite <- Hres in Hleast. simpl app in Hleast.
    assert (Hnats : recognized_ranks (natives (pre ++ n :: post)) =
                    recognized_ranks (natives (n :: post))).
    { now rewrite natives_app, recognized_ranks_app,
        (recognized_ranks_natives_none pre Hpre). }
    destruct (InitVideo_negotiate 0 (pre ++ n :: post)) as [d|] eqn:Hd.
    + exists pre, n, post, d.
      do 4 (split; [done|]). split; [exact Hleast|]. rewrite Hnats. split.
      * destruct Hleast as [_ Hle]. now apply Forall_app in Hle as [_ Hle].
      * intros Hnil. now rewrite Hnil in Hleast.
    + simpl in Hleast. apply app_eq_nil in Hleast as [_ Hleast].
      unfold natives, recognized_ranks, recognized_native in Hleast, Hn.
      simpl in Hleast.
      destruct (vlc_from_v4l2_fourcc (pixelformat n)) eqn:E; [|done].
      rewrite Hn in Hleast. simpl in Hleast. now rewrite E in Hleast.
  - intros reqfourcc codec dsc selected native Hdsc Hno Hrank.
    assert (Hsel : selected = Some dsc).
    { pose proof (vlc_from_v4l2_fourcc_lt _ _ Hdsc) as Hlt.
      pose proof v4l2_fmts_length as Hlen.
      destruct selected as [s|]; simpl in Hrank; [|lia].
      f_equal. lia. }
    split; [done|]. subst selected.
    rewrite (enum_fmt_body_no_match _ _ _ _ Hno), Hdsc.
    destruct (_ && _); [eauto|]. destruct (_ >? _); eauto.
Qed.

(** C2, as amended.  Once a recognized non-emulated encoding has been
    enumerated, an emulated encoding enumerated later whose output encoding
    is not the requested one is skipped: negotiation gives the result it
    gives on the enumeration without that encoding, whatever its rank. *)
Theorem C2_emulated_skipped_after_native
  (reqfourcc : Z) (pre : list v4l2_fmtdesc) (e : v4l2_fmtdesc)
  (post : list v4l2_fmtdesc) :
  (exists c, c ∈ pre /\ recognized_native c = true) ->
  is_emulated e = true ->
  matches_request reqfourcc e = false ->
  InitVideo_negotiate reqfourcc (pre ++ e :: post) =
  InitVideo_negotiate reqfourcc (pre ++ post).
Proof.
  intros Hnat Hem Hno. unfold InitVideo_negotiate.
  rewrite !enum_fmt_loop_prefix.
  destruct (enum_fmt_prefix reqfourcc pre None false) as [[s n]|[s n]] eqn:E;
    [done|].
  assert (n = true) as -> by (eapply enum_fmt_prefix_native; eauto).
  simpl. now rewrite enum_fmt_body_skip_emulated.
Qed.

(** C3.  When some enumerated encoding is in the catalog with the requested
    output encoding, negotiation selects the catalog entry of the first such
    encoding of the enumeration, whatever its rank and its emulation flag,
    and whatever is enumerated after it; a successful [InitVideo] then
    publishes the requested output encoding. *)
Theorem C3_requested_format_selected
  (reqfourcc : Z) (codecs : list v4l2_fmtdesc) :
  (exists c, c ∈ codecs /\ matches_request reqfourcc c = true) ->
  exists pre c post d,
    codecs = pre ++ c :: post
    /\ Forall (fun x => matches_request reqfourcc x = false) pre
    /\ vlc_from_v4l2_fourcc (pixelformat c) = Some d
    /\ vlc (fmt_at d) = reqfourcc
    /\ InitVideo_negotiate reqfourcc codecs = Some d
    /\ (forall post',
          InitVideo_negotiate reqfourcc (pre ++ c :: post') = Some d)
    /\ (forall dev cfg sys sys' es,
          dev_enum_fmt dev = codecs ->
          var_InheritFourCC (cfg_chroma cfg) = reqfourcc ->
          InitVideo dev cfg sys = Ok (sys', es) ->
          i_codec es = reqfourcc).
Proof.
  intros Hex.
  destruct (list_first_split (matches_request reqfourcc) codecs Hex)
    as (pre & c & post & -> & Hpre & Hc).
  assert (Hd : exists d, vlc_from_v4l2_fourcc (pixelformat c) = Some d
                         /\ vlc (fmt_at d) = reqfourcc).
  { unfold matches_request in Hc.
    destruct (vlc_from_v4l2_fourcc (pixelformat c)) as [d|]; [|done].
    exists d. split; [done|]. now apply Z.eqb_eq. }
  destruct Hd as (d & Hd & Hvlc).
  assert (Hsel : forall post',
             InitVideo_negotiate reqfourcc (pre ++ c :: post') = Some d).
  { intros post'. unfold InitVideo_negotiate. rewrite enum_fmt_loop_prefix.
    destruct (enum_fmt_prefix_no_match reqfourcc pre None false Hpre)
      as (s & n & ->).
    simpl. now rewrite (enum_fmt_body_match _ _ _ _ Hc), Hd. }
  exists pre, c, post, d. do 4 (split; [done|]).
  split; [apply Hsel|]. split; [done|].
  intros dev cfg sys sys' es Henum Hreq Hok.
  destruct (InitVideo_Ok_inv _ _ _ _ _ Hok)
    as (cap & sel & fmt & ar & _ & _ & _ & Hneg & _ & _ & _ & ->).
  rewrite Henum, Hreq, Hsel in Hneg. injection Hneg as <-. exact Hvlc.
Qed.

(** C8.  When no enumerated encoding is in the catalog, negotiation selects
    nothing, [InitVideo] returns -1, and it does so with "cannot negotiate
    supported video format" whenever the steps before the negotiation
    succeeded. *)
Theorem C8_no_recognized_format_fails
  (dev : v4l2_device) (cfg : v4l2_config) (sys : demux_sys_t) :
  Forall (fun c => vlc_from_v4l2_fourcc (pixelformat c) = None)
    (dev_enum_fmt dev) ->
  InitVideo_negotiate (var_InheritFourCC (cfg_chroma cfg))
    (dev_enum_fmt dev) = None
  /\ InitVideo_ret (InitVideo dev cfg sys) = Some (-1)
  /\ (forall cap io_sel,
        dev_querycap dev = Some cap ->
        InitVideo_io (InitVideo_caps cap) = Ok io_sel ->
        dev_setup_input dev = true ->
        InitVideo dev cfg sys = Fail Err_negotiate).
Proof.
  intros Hno.
  assert (Hneg : InitVideo_negotiate (var_InheritFourCC (cfg_chroma cfg))
                   (dev_enum_fmt dev) = None).
  { unfold InitVideo_negotiate. now apply enum_fmt_loop_unrecognized. }
  split; [done|]. unfold InitVideo. rewrite Hneg. split.
  - destruct (dev_querycap dev) as [cap|]; simpl; [|done].
    destruct (InitVideo_io (InitVideo_caps cap)) as [i|e] eqn:Hio; simpl.
    + now destruct (dev_setup_input dev).
    + unfold InitVideo_io in Hio.
      repeat match type of Hio with
             | (if ?b then _ else _) = _ => destruct b
             end; now inversion Hio.
  - intros cap io_sel -> Hio Hin. simpl. rewrite Hio. simpl. now rewrite Hin.
Qed.

End NegotiationClaims.

(** ** Properties of the set-up *)

Section SetupClaims.
Context `{!videodev2_h, !vlc_h, !c_platform}.

(** C5.  For each mode of the table of section 4.3 and each value of
    [fmt.fmt.pix.field] that denotes it, the [switch] of [InitVideo] leaves
    the session flags as the table says (no flag: untouched; top-field-first
    for interleaved and interleaved top-bottom; bottom-field-first for
    interleaved bottom-top), doubles the 32-bit height for alternating
    fields and for no other mode, and warns for an unrecognized value only.
    A successful [InitVideo] publishes these values; in a session that
    [DemuxOpen] opened "no flag" is the value 0; and no value of the field
    makes [InitVideo] fail. *)
Theorem C5_interlacing_table
  (m : interlacing_mode) (fld block_flags h : Z) :
  NoDup v4l2_field_cases -> field_denotes fld m ->
  InitVideo_interlacing fld block_flags h =
    (apply_frame_flag (spec_interlacing_flag m) block_flags,
     if spec_height_doubled m then u32 (h * 2) else h,
     spec_mode_diagnostic m)
  /\ (0 <= h < 2 ^ 31 -> u32 (h * 2) = 2 * h)
  /\ (forall dev cfg sys sys' es,
        InitVideo dev cfg sys = Ok (sys', es) ->
        exists selected fmt,
          dev_setup_format dev (v4l2 (fmt_at selected)) = Some fmt
          /\ (field fmt = fld ->
              i_block_flags sys' =
                apply_frame_flag (spec_interlacing_flag m) (i_block_flags sys)
              /\ i_height es =
                 if spec_height_doubled m then u32 (height fmt * 2)
                 else height fmt))
  /\ (forall w r sys',
        DemuxOpen w = Some (r, Some sys') ->
        exists selected fmt,
          dev_setup_format (ow_device w) (v4l2 (fmt_at selected)) = Some fmt
          /\ (field fmt = fld ->
              i_block_flags sys' =
                apply_frame_flag (spec_interlacing_flag m) 0))
  /\ (forall dev cfg sys cap io_sel selected fmt ar,
        dev_querycap dev = Some cap ->
        InitVideo_io (InitVideo_caps cap) = Ok io_sel ->
        dev_setup_input dev = true ->
        InitVideo_negotiate (var_InheritFourCC (cfg_chroma cfg))
          (dev_enum_fmt dev) = Some selected ->
        dev_setup_format dev (v4l2 (fmt_at selected)) = Some fmt ->
        InitVideo_aspect (cfg_aspect_ratio cfg) = Some ar ->
        (io_sel = IO_METHOD_READ
         \/ exists bufs, dev_init_mmap dev = Some bufs
              /\ forallb (dev_qbuf dev) (seq 0 (Datatypes.length bufs)) = true
              /\ dev_streamon dev = true) ->
        field fmt = fld ->
        InitVideo_ret (InitVideo dev cfg sys) = Some 0).
Proof.
  intros Hnd Hm.
  assert (Htable : forall bf x,
    InitVideo_interlacing fld bf x =
    (apply_frame_flag (spec_interlacing_flag m) bf,
     if spec_height_doubled m then u32 (x * 2) else x,
     spec_mode_diagnostic m)).
  { intros bf x. unfold InitVideo_interlacing.
    unfold v4l2_field_cases in Hnd, Hm.
    repeat match goal with
           | H : NoDup (_ :: _) |- _ =>
             apply NoDup_cons in H as [? H]
           end.
    repeat match goal with
           | H : _ ∉ _ :: _ |- _ => apply not_elem_of_cons in H as [? H]
           end.
    destruct m; simpl in Hm; try unfold v4l2_field_cases in Hm;
      repeat match goal with
             | H : _ ∉ _ :: _ |- _ => apply not_elem_of_cons in H as [? H]
             end;
      subst;
      repeat match goal with
             | |- context [?a =? ?b] =>
               first [ rewrite (Z.eqb_refl a)
                     | rewrite (proj2 (Z.eqb_neq a b)) by congruence ]
             end;
      reflexivity. }
  split; [apply Htable|]. split.
  { intros Hh. rewrite u32_small; lia. }
  split; [|split].
  - intros dev cfg sys sys' es Hok.
    destruct (InitVideo_Ok_inv _ _ _ _ _ Hok)
      as (cap & sel & fmt & ar & _ & _ & _ & _ & Hfmt & _ & Hflags & ->).
    exists sel, fmt. split; [done|]. intros Hfld.
    rewrite Hflags, Hfld, Htable. done.
  - intros w r sys' Hopen.
    destruct (DemuxOpen_session _ _ _ Hopen)
      as (_ & sys0 & es & Hok & _ & Hbf & _).
    destruct (InitVideo_Ok_inv _ _ _ _ _ Hok)
      as (cap & sel & fmt & ar & _ & _ & _ & _ & Hfmt & _ & Hflags & _).
    exists sel, fmt. split; [done|]. intros Hfld.
    rewrite Hbf, Hflags, Hfld, Htable. done.
  - intros dev cfg sys cap io_sel selected fmt ar
      Hcap Hio Hin Hneg Hfmt Har Hinit _.
    eapply InitVideo_succeeds; eauto.
Qed.

(** C7.  The tested capability word decides the I/O method: without the
    capture capability [InitVideo] fails ("not a video capture device");
    otherwise memory mapping is chosen when the streaming capability is
    present, whether or not read/write is; otherwise read is chosen when
    read/write is present; otherwise [InitVideo] fails with "no supported
    I/O method". *)
Theorem C7_io_strategy (caps : Z) :
  (Z.land caps V4L2_CAP_VIDEO_CAPTURE = 0 ->
   InitVideo_io caps = Fail Err_not_capture)
  /\ (Z.land caps V4L2_CAP_VIDEO_CAPTURE <> 0 ->
      Z.land caps V4L2_CAP_STREAMING <> 0 ->
      InitVideo_io caps = Ok IO_METHOD_MMAP)
  /\ (Z.land caps V4L2_CAP_VIDEO_CAPTURE <> 0 ->
      Z.land caps V4L2_CAP_STREAMING = 0 ->
      Z.land caps V4L2_CAP_READWRITE <> 0 ->
      InitVideo_io caps = Ok IO_METHOD_READ)
  /\ (Z.land caps V4L2_CAP_VIDEO_CAPTURE <> 0 ->
      Z.land caps V4L2_CAP_STREAMING = 0 ->
      Z.land caps V4L2_CAP_READWRITE = 0 ->
      InitVideo_io caps = Fail Err_no_io_method)
  /\ (forall dev cfg sys cap,
        dev_querycap dev = Some cap -> InitVideo_caps cap = caps ->
        (forall e, InitVideo_io caps = Fail e ->
                   InitVideo dev cfg sys = Fail e
                   /\ InitVideo_ret (InitVideo dev cfg sys) = Some (-1))
        /\ (forall sys' es, InitVideo dev cfg sys = Ok (sys', es) ->
                            InitVideo_io caps = Ok (io sys'))).
Proof.
  split; [|split; [|split; [|split]]].
  - intros Hc. unfold InitVideo_io. now rewrite (has_flag_false _ _ Hc).
  - intros Hc Hs. unfold InitVideo_io.
    now rewrite (has_flag_true _ _ Hc), (has_flag_true _ _ Hs).
  - intros Hc Hs Hr. unfold InitVideo_io.
    now rewrite (has_flag_true _ _ Hc), (has_flag_false _ _ Hs),
      (has_flag_true _ _ Hr).
  - intros Hc Hs Hr. unfold InitVideo_io.
    now rewrite (has_flag_true _ _ Hc), (has_flag_false _ _ Hs),
      (has_flag_false _ _ Hr).
  - intros dev cfg sys cap Hcap Hcaps. split.
    + intros e He.
      assert (Hfail : InitVideo dev cfg sys = Fail e).
      { unfold InitVideo. rewrite Hcap. simpl. rewrite Hcaps, He. done. }
      split; [done|]. rewrite Hfail. unfold InitVideo_io in He.
      repeat match type of He with
             | (if ?b then _ else _) = _ => destruct b
             end; now inversion He.
    + intros sys' es Hok.
      destruct (InitVideo_Ok_inv _ _ _ _ _ Hok)
        as (cap' & sel & fmt & ar & Hcap' & Hio & _).
      congruence.
Qed.

End SetupClaims.

Section AspectRatio.
Context `{!videodev2_h, !vlc_h, !c_platform}.

Lemma in_int_true x : INT_MIN <= x <= INT_MAX -> in_int x = true.
Proof.
  intros Hx. unfold in_int. apply andb_true_intro. split; now apply Z.leb_le.
Qed.

Lemma quot_abs_le a b : b <> 0 -> Z.abs (Z.quot a b) <= Z.abs a.
Proof.
  intros Hb. rewrite <- Z.quot_abs by done.
  apply Z.quot_le_upper_bound; [lia|]. nia.
Qed.

Lemma int_mul_defined a b :
  INT_MIN <= a * b <= INT_MAX -> int_mul a b = Some (a * b).
Proof. intros Hab. unfold int_mul. now rewrite in_int_true. Qed.

Lemma int_div_defined a b :
  b <> 0 -> INT_MIN < a <= INT_MAX -> int_div a b = Some (Z.quot a b).
Proof.
  intros Hb Ha. unfold int_div.
  rewrite (proj2 (Z.eqb_neq b 0) Hb), in_int_true; [done|].
  pose proof (quot_abs_le a b Hb). unfold INT_MIN, INT_MAX in *. lia.
Qed.

Lemma InitVideo_aspect_default str :
  0 < VOUT_ASPECT_FACTOR -> 4 * VOUT_ASPECT_FACTOR <= INT_MAX ->
  (str = None \/ exists s, str = Some s /\ strchr s ":" = None) ->
  InitVideo_aspect str = Some (Z.quot (4 * VOUT_ASPECT_FACTOR) 3).
Proof.
  intros Hpos Hmax Hstr. unfold InitVideo_aspect.
  rewrite (int_mul_defined 4 VOUT_ASPECT_FACTOR)
    by (unfold INT_MIN, INT_MAX in *; lia).
  simpl. rewrite int_div_defined
    by (unfold INT_MIN, INT_MAX in *; lia).
  simpl. destruct Hstr as [-> | (s & -> & ->)]; done.
Qed.

Lemma InitVideo_aspect_ratio s delim w h :
  0 < VOUT_ASPECT_FACTOR -> 4 * VOUT_ASPECT_FACTOR <= INT_MAX ->
  strchr s ":" = Some delim ->
  atoi s = Some w -> atoi (str_next delim) = Some h -> h <> 0 ->
  INT_MIN < w * VOUT_ASPECT_FACTOR <= INT_MAX ->
  InitVideo_aspect (Some s) = Some (Z.quot (w * VOUT_ASPECT_FACTOR) h).
Proof.
  intros Hpos Hmax Hdelim Hw Hh Hnz Hrange. unfold InitVideo_aspect.
  rewrite (int_mul_defined 4 VOUT_ASPECT_FACTOR)
    by (unfold INT_MIN, INT_MAX in *; lia).
  simpl. rewrite int_div_defined
    by (unfold INT_MIN, INT_MAX in *; lia).
  simpl. rewrite Hdelim, Hw, Hh. simpl.
  rewrite int_mul_defined by lia. simpl. now apply int_div_defined.
Qed.

(** C9.  The display aspect ratio, scaled by [VOUT_ASPECT_FACTOR], is 4:3
    when there is no aspect-ratio string or the string holds no ':'; when
    the string holds a ':' it is W:H, with W the integer read at the start
    of the string and H the integer read after the first ':' (H not zero,
    the product in the range of [int]).  The published sample aspect ratio
    is numerator = ratio x height and denominator = [VOUT_ASPECT_FACTOR] x
    width, so that numerator : denominator = (W x height) : (H x width) when
    H divides W x [VOUT_ASPECT_FACTOR] and the products fit 32 bits; with
    the factor 432000, "16:9" and a frame of 720x480 give
    numerator x (9 x 720) = denominator x (16 x 480). *)
Theorem C9_aspect_ratio :
  0 < VOUT_ASPECT_FACTOR -> 4 * VOUT_ASPECT_FACTOR <= INT_MAX ->
  (forall str,
     (str = None \/ exists s, str = Some s /\ strchr s ":" = None) ->
     InitVideo_aspect str = Some (Z.quot (4 * VOUT_ASPECT_FACTOR) 3))
  /\ ((3 | VOUT_ASPECT_FACTOR) ->
      3 * Z.quot (4 * VOUT_ASPECT_FACTOR) 3 = 4 * VOUT_ASPECT_FACTOR)
  /\ (forall s delim w h,
        strchr s ":" = Some delim ->
        atoi s = Some w -> atoi (str_next delim) = Some h -> h <> 0 ->
        INT_MIN < w * VOUT_ASPECT_FACTOR <= INT_MAX ->
        InitVideo_aspect (Some s) =
        Some (Z.quot (w * VOUT_ASPECT_FACTOR) h))
  /\ (forall ar hgt wdt,
        0 <= ar * hgt < 2 ^ 32 -> 0 <= VOUT_ASPECT_FACTOR * wdt < 2 ^ 32 ->
        InitVideo_sar_num ar hgt = ar * hgt
        /\ InitVideo_sar_den wdt = VOUT_ASPECT_FACTOR * wdt)
  /\ (forall dev cfg sys sys' es,
        InitVideo dev cfg sys = Ok (sys', es) ->
        exists ar,
          InitVideo_aspect (cfg_aspect_ratio cfg) = Some ar
          /\ i_sar_num es = InitVideo_sar_num ar (i_height es)
          /\ i_sar_den es = InitVideo_sar_den (i_width es))
  /\ (forall w h hgt wdt,
        h <> 0 -> (h | w * VOUT_ASPECT_FACTOR) ->
        0 <= Z.quot (w * VOUT_ASPECT_FACTOR) h * hgt < 2 ^ 32 ->
        0 <= VOUT_ASPECT_FACTOR * wdt < 2 ^ 32 ->
        InitVideo_sar_num (Z.quot (w * VOUT_ASPECT_FACTOR) h) hgt * (h * wdt)
        = InitVideo_sar_den wdt * (w * hgt))
  /\ (VOUT_ASPECT_FACTOR = 432000 ->
      InitVideo_aspect (Some "16:9"%string) = Some 768000
      /\ InitVideo_sar_num 768000 480 = 368640000
      /\ InitVideo_sar_den 720 = 311040000
      /\ InitVideo_sar_num 768000 480 * (9 * 720)
         = InitVideo_sar_den 720 * (16 * 480)).
Proof.
  intros Hpos Hmax.
  split; [intros str; now apply InitVideo_aspect_default|].
  split.
  { intros [k Hk]. rewrite Hk.
    replace (4 * (k * 3)) with (4 * k * 3) by lia.
    rewrite Z.quot_mul by done. lia. }
  split; [intros s delim w h; now apply InitVideo_aspect_ratio|].
  split.
  { intros ar hgt wdt Hn Hd. unfold InitVideo_sar_num, InitVideo_sar_den.
    now rewrite !u32_small. }
  split.
  { intros dev cfg sys sys' es Hok.
    destruct (InitVideo_Ok_inv _ _ _ _ _ Hok)
      as (cap & sel & fmt & ar & _ & _ & _ & _ & _ & Har & _ & ->).
    exists ar. done. }
  split.
  { intros w h hgt wdt Hh [k Hk] Hn Hd.
    unfold InitVideo_sar_num, InitVideo_sar_den.
    rewrite !u32_small by done.
    assert (Hq : Z.quot (w * VOUT_ASPECT_FACTOR) h = k)
      by (rewrite Hk; now apply Z.quot_mul).
    rewrite Hq. transitivity (k * h * (hgt * wdt)); [ring|].
    rewrite <- Hk. ring. }
  intros HF. unfold InitVideo_aspect, InitVideo_sar_num, InitVideo_sar_den.
  rewrite HF. vm_compute. done.
Qed.

End AspectRatio.

(** ** Properties of the capture cycle *)

Section CaptureClaims.
Context `{!c_platform}.

Lemma Demux_poll_interrupted pre rest :
  Forall poll_interrupted pre ->
  Demux_poll (pre ++ rest) = Demux_poll rest.
Proof.
  induction 1 as [|p pre [Hret Herr] _ IH]; [done|].
  simpl. rewrite Hret, Herr, !Z.eqb_refl. exact IH.
Qed.

(** C6.  In a call of [Demux], the [poll] calls that fail with [EINTR] are
    repeated and leave no trace: the call behaves as the first [poll] that
    is not interrupted dictates, and while every [poll] so far was
    interrupted nothing has been returned.  A [poll] that fails with another
    error makes [Demux] return -1 after "poll error"; a [poll] that returns
    0 with no event reported makes [Demux] return 1 with nothing emitted. *)
Theorem C6_poll_loop
  (sys : demux_sys_t) (w : capture_world)
  (pre : list poll_result) (p : poll_result) (rest : list poll_result) :
  Forall poll_interrupted pre ->
  Demux sys (with_polls w (pre ++ p :: rest)) =
  Demux sys (with_polls w (p :: rest))
  /\ Demux sys (with_polls w pre) = None
  /\ (poll_ret p = -1 -> poll_errno p <> EINTR ->
      Demux sys (with_polls w (pre ++ p :: rest)) =
      Some (-1, [Msg_poll_error]))
  /\ (poll_ret p = 0 -> poll_revents p = 0 ->
      Demux sys (with_polls w (pre ++ p :: rest)) = Some (1, [])).
Proof.
  intros Hpre.
  assert (Hrun : Demux_poll (pre ++ p :: rest) = Demux_poll (p :: rest))
    by now apply Demux_poll_interrupted.
  assert (Hnone : Demux_poll pre = None).
  { rewrite <- (app_nil_r pre). now rewrite Demux_poll_interrupted. }
  unfold Demux. simpl w_polls. rewrite Hrun, Hnone.
  split; [done|]. split; [done|]. split.
  - intros Hret Herr. simpl. rewrite Hret. simpl.
    now rewrite (proj2 (Z.eqb_neq _ _) Herr).
  - intros Hret Hrev. simpl. rewrite Hret, Hrev. done.
Qed.

End CaptureClaims.

(** ** Properties of the teardown *)

Section TeardownClaims.

Lemma DemuxClose_mmap sys bufs :
  io sys = IO_METHOD_MMAP -> p_buffers sys = Some bufs ->
  DemuxClose sys =
  replicate (i_nbuffers sys) Ev_dqbuf
  ++ Ev_streamoff
  :: map Ev_munmap (seq 0 (i_nbuffers sys))
  ++ [Ev_free_buffers; Ev_controls_deinit; Ev_close (i_fd sys); Ev_free_sys].
Proof.
  intros Hio Hbufs. unfold DemuxClose, DemuxClose_stop, DemuxClose_free.
  rewrite Hio, Hbufs. rewrite <- !app_assoc. reflexivity.
Qed.

(** C4, what the code does.  In the teardown of a memory-mapped session
    whose buffer array exists, the driver is first asked to dequeue once per
    buffer, then streaming is disabled, and only then are the buffers
    unmapped: [VIDIOC_STREAMOFF] is the call number [i_nbuffers] of the
    trace, and every [v4l2_munmap] comes after it. *)
Theorem C4_DemuxClose_unmaps_after_streamoff
  (sys : demux_sys_t) (bufs : list buffer_t) :
  io sys = IO_METHOD_MMAP -> p_buffers sys = Some bufs ->
  DemuxClose sys !! i_nbuffers sys = Some Ev_streamoff
  /\ (forall i, (i < i_nbuffers sys)%nat ->
        DemuxClose sys !! (i_nbuffers sys + 1 + i)%nat = Some (Ev_munmap i))
  /\ (forall i j, DemuxClose sys !! j = Some (Ev_munmap i) ->
        (i_nbuffers sys < j)%nat).
Proof.
  intros Hio Hbufs. rewrite (DemuxClose_mmap sys bufs Hio Hbufs).
  set (n := i_nbuffers sys).
  assert (Hlen : Datatypes.length (replicate n Ev_dqbuf) = n)
    by apply length_replicate.
  split; [|split].
  - rewrite lookup_app_r by lia. now rewrite Hlen, Nat.sub_diag.
  - intros i Hi. rewrite lookup_app_r by lia.
    rewrite Hlen. replace (n + 1 + i - n)%nat with (S i) by lia. simpl.
    rewrite lookup_app_l by (rewrite length_map, length_seq; lia).
    rewrite list_lookup_fmap, lookup_seq_lt by done. done.
  - intros i j Hj. destruct (decide (j < n)%nat) as [Hlt|Hge].
    + rewrite lookup_app_l in Hj by lia.
      apply lookup_replicate in Hj as [Hj _]. discriminate.
    + destruct (decide (j = n)) as [->|Hne]; [|lia].
      rewrite lookup_app_r in Hj by lia.
      rewrite Hlen, Nat.sub_diag in Hj. discriminate.
Qed.

End TeardownClaims.

(** ** Properties of [GetPackedYuvOffsets] *)

Section FilterPictureClaims.
Context `{!vlc_h}.

Lemma offsets_written_insert (mem : gmap Z Z) py pu pv y u v :
  py <> pu -> py <> pv -> pu <> pv ->
  offsets_written mem (<[pv := v]> (<[pu := u]> (<[py := y]> mem)))
    py pu pv y u v.
Proof.
  intros Hyu Hyv Huv. unfold offsets_written. repeat split.
  - rewrite lookup_insert_ne, lookup_insert_ne by done.
    apply lookup_insert_eq.
  - rewrite lookup_insert_ne by done. apply lookup_insert_eq.
  - apply lookup_insert_eq.
  - intros p Hy Hu Hv. now rewrite !lookup_insert_ne.
Qed.

(** Decides the comparisons of a fourcc with the [case] labels. *)
Ltac label_cases :=
  repeat match goal with
         | |- context [?a =? ?b] =>
           first
             [ rewrite (Z.eqb_refl a)
             | rewrite (proj2 (Z.eqb_neq a b)) by congruence
             | destruct (Z.eqb_spec a b) as [->|?] ]
         end.

(** C10.  [GetPackedYuvOffsets] returns [VLC_SUCCESS] exactly for the seven
    fourccs of [CASE_PACKED_YUV_422].  For UYVY, UYNV, Y422 and cyuv it
    stores 1, 0, 2 in the objects for the Y, U and V offsets, for YUY2 and
    YUNV 0, 1, 3, for YVYU 0, 3, 1, and nothing else changes.  For any other
    fourcc it returns [VLC_EGENERIC] and the store is as before. *)
Theorem C10_packed_yuv_offsets
  (i_chroma i_y_offset i_u_offset i_v_offset : Z) (mem : gmap Z Z) :
  NoDup CASE_PACKED_YUV_422 -> VLC_SUCCESS <> VLC_EGENERIC ->
  i_y_offset <> i_u_offset -> i_y_offset <> i_v_offset ->
  i_u_offset <> i_v_offset ->
  let r :=
    GetPackedYuvOffsets i_chroma i_y_offset i_u_offset i_v_offset mem in
  (r.1 = VLC_SUCCESS <-> i_chroma ∈ CASE_PACKED_YUV_422)
  /\ (i_chroma ∈ [ VLC_FOURCC "U" "Y" "V" "Y"; VLC_FOURCC "U" "Y" "N" "V";
                   VLC_FOURCC "Y" "4" "2" "2"; VLC_FOURCC "c" "y" "u" "v" ] ->
      r.1 = VLC_SUCCESS
      /\ offsets_written mem r.2 i_y_offset i_u_offset i_v_offset 1 0 2)
  /\ (i_chroma ∈ [ VLC_FOURCC "Y" "U" "Y" "2"; VLC_FOURCC "Y" "U" "N" "V" ] ->
      r.1 = VLC_SUCCESS
      /\ offsets_written mem r.2 i_y_offset i_u_offset i_v_offset 0 1 3)
  /\ (i_chroma = VLC_FOURCC "Y" "V" "Y" "U" ->
      r.1 = VLC_SUCCESS
      /\ offsets_written mem r.2 i_y_offset i_u_offset i_v_offset 0 3 1)
  /\ (i_chroma ∉ CASE_PACKED_YUV_422 -> r.1 = VLC_EGENERIC /\ r.2 = mem).
Proof.
  intros Hnd Hse Hyu Hyv Huv r. subst r.
  unfold CASE_PACKED_YUV_422 in *. unfold GetPackedYuvOffsets.
  repeat match goal with
         | H : NoDup (_ :: _) |- _ => apply NoDup_cons in H as [? H]
         end.
  repeat match goal with
         | H : _ ∉ _ :: _ |- _ => apply not_elem_of_cons in H as [? H]
         end.
  pose proof (offsets_written_insert mem _ _ _ 1 0 2 Hyu Hyv Huv) as Huyvy.
  pose proof (offsets_written_insert mem _ _ _ 0 1 3 Hyu Hyv Huv) as Hyuyv.
  pose proof (offsets_written_insert mem _ _ _ 0 3 1 Hyu Hyv Huv) as Hyvyu.
  rewrite !elem_of_cons, !elem_of_nil.
  label_cases; simpl.
  all: intuition congruence.
Qed.

End FilterPictureClaims.

(** ** Examples on the concrete build *)

Section Examples.
#[local] Existing Instance linux_videodev2_h.
#[local] Existing Instance vlc2_h.
#[local] Existing Instance linux_lp64.

(** The catalog of the concrete build has 28 rows and ranks them from 0. *)
Example v4l2_fmts_rows : Datatypes.length v4l2_fmts = 28%nat.
Proof. reflexivity. Qed.

Example rank_YUV422P :
  vlc_from_v4l2_fourcc V4L2_PIX_FMT_YUV422P = Some 2%nat.
Proof. reflexivity. Qed.

(** The scenario of the specification: emulated YVYU (rank 5), native
    YUV422P (rank 2), emulated YVU420 (rank 1), nothing requested. *)
Example negotiate_native_wins :
  InitVideo_negotiate 0
    [ emulated_fmt V4L2_PIX_FMT_YVYU; native_fmt V4L2_PIX_FMT_YUV422P;
      emulated_fmt V4L2_PIX_FMT_YVU420 ] = Some 2%nat.
Proof. reflexivity. Qed.

(** C1 at the scenario of the specification. *)
Lemma C1_negotiation_lowest_rank_witness :
  let codecs :=
    [ emulated_fmt V4L2_PIX_FMT_YVYU; native_fmt V4L2_PIX_FMT_YUV422P;
      emulated_fmt V4L2_PIX_FMT_YVU420 ] in
  65535 <= SIZE_MAX
  /\ catalog_codecs_nonzero
  /\ (exists c, c ∈ codecs /\ recognized_native c = true)
  /\ exists pre n post d,
       codecs = pre ++ n :: post
       /\ Forall (fun c => recognized_native c = false) pre
       /\ recognized_native n = true
       /\ InitVideo_negotiate (var_InheritFourCC None) codecs = Some d
       /\ least_of (Some d)
            (recognized_ranks pre ++ recognized_ranks (natives (n :: post)))
       /\ Forall (fun r => (d <= r)%nat) (recognized_ranks (natives codecs))
       /\ (recognized_ranks pre = [] ->
           least_of (Some d) (recognized_ranks (natives codecs))).
Proof.
  intros codecs.
  assert (Hmax : 65535 <= SIZE_MAX) by (vm_compute; discriminate).
  assert (Hnz : catalog_codecs_nonzero)
    by (apply (bool_decide_unpack _); vm_compute; exact I).
  assert (Hex : exists c, c ∈ codecs /\ recognized_native c = true).
  { exists (native_fmt V4L2_PIX_FMT_YUV422P). split; [|reflexivity].
    repeat constructor. }
  split; [exact Hmax|]. split; [exact Hnz|]. split; [exact Hex|].
  exact (proj1 (C1_negotiation_lowest_rank Hmax Hnz) codecs Hex).
Defined.

(** C1 as stated fails: an emulated encoding enumerated before the first
    native one keeps the selection when its rank is better.  Emulated YUV420
    (rank 0) then native YVU420 (rank 1), nothing requested: rank 0 is
    selected, and it is not the lowest rank among the non-emulated
    encodings, which is 1. *)
Lemma C1_counterexample :
  let codecs :=
    [ emulated_fmt V4L2_PIX_FMT_YUV420; native_fmt V4L2_PIX_FMT_YVU420 ] in
  (exists c, c ∈ codecs /\ recognized_native c = true)
  /\ is_emulated (emulated_fmt V4L2_PIX_FMT_YUV420) = true
  /\ InitVideo_negotiate (var_InheritFourCC None) codecs = Some 0%nat
  /\ recognized_ranks (natives codecs) = [1%nat]
  /\ ~ least_of (InitVideo_negotiate (var_InheritFourCC None) codecs)
         (recognized_ranks (natives codecs)).
Proof.
  intros codecs. split.
  { exists (native_fmt V4L2_PIX_FMT_YVU420). split; [|reflexivity].
    repeat constructor. }
  split; [reflexivity|]. split; [reflexivity|]. split; [reflexivity|].
  intros [Hin _]. vm_compute in Hin.
  apply list_elem_of_singleton in Hin. discriminate.
Qed.

(** C2 on the scenario of the specification: the emulated YVU420 that
    follows the native YUV422P is skipped. *)
Lemma C2_emulated_skipped_after_native_witness :
  let pre :=
    [ emulated_fmt V4L2_PIX_FMT_YVYU; native_fmt V4L2_PIX_FMT_YUV422P ] in
  let e := emulated_fmt V4L2_PIX_FMT_YVU420 in
  (exists c, c ∈ pre /\ recognized_native c = true)
  /\ is_emulated e = true
  /\ matches_request 0 e = false
  /\ InitVideo_negotiate 0 (pre ++ e :: []) =
     InitVideo_negotiate 0 (pre ++ []).
Proof.
  intros pre e.
  assert (Hex : exists c, c ∈ pre /\ recognized_native c = true).
  { exists (native_fmt V4L2_PIX_FMT_YUV422P). split; [|reflexivity].
    repeat constructor. }
  split; [exact Hex|]. split; [reflexivity|]. split; [reflexivity|].
  exact (C2_emulated_skipped_after_native 0 pre e [] Hex eq_refl eq_refl).
Defined.

(** C2 as stated fails when the emulated encoding is the requested one.
    Request YV12; native YUV420 (rank 0) is enumerated and accepted, then
    emulated YVU420, whose output encoding is YV12: it is selected. *)
Lemma C2_counterexample :
  let pre := [ native_fmt V4L2_PIX_FMT_YUV420 ] in
  let e := emulated_fmt V4L2_PIX_FMT_YVU420 in
  (exists c, c ∈ pre /\ recognized_native c = true)
  /\ enum_fmt_prefix VLC_CODEC_YV12 pre None false =
     Continue (Some 0%nat, true)
  /\ is_emulated e = true
  /\ vlc_from_v4l2_fourcc (pixelformat e) = Some 1%nat
  /\ InitVideo_negotiate VLC_CODEC_YV12 (pre ++ [e]) = Some 1%nat
  /\ InitVideo_negotiate VLC_CODEC_YV12 pre = Some 0%nat.
Proof.
  intros pre e. split.
  { exists (native_fmt V4L2_PIX_FMT_YUV420). split; [|reflexivity].
    repeat constructor. }
  repeat split.
Qed.

(** C3: RGB24 is requested; BGR24 (rank 14) is the first enumerated encoding
    whose output encoding is RGB24 and is selected although YUV420 (rank 0)
    was seen before and RGB24 (rank 13) follows. *)
Lemma C3_requested_format_selected_witness :
  let codecs :=
    [ native_fmt V4L2_PIX_FMT_YUV420; emulated_fmt V4L2_PIX_FMT_BGR24;
      native_fmt V4L2_PIX_FMT_RGB24 ] in
  (exists c, c ∈ codecs /\ matches_request VLC_CODEC_RGB24 c = true)
  /\ exists pre c post d,
       codecs = pre ++ c :: post
       /\ Forall (fun x => matches_request VLC_CODEC_RGB24 x = false) pre
       /\ vlc_from_v4l2_fourcc (pixelformat c) = Some d
       /\ vlc (fmt_at d) = VLC_CODEC_RGB24
       /\ InitVideo_negotiate VLC_CODEC_RGB24 codecs = Some d.
Proof.
  intros codecs.
  assert (Hex : exists c,
             c ∈ codecs /\ matches_request VLC_CODEC_RGB24 c = true).
  { exists (emulated_fmt V4L2_PIX_FMT_BGR24). split; [|reflexivity].
    repeat constructor. }
  split; [exact Hex|].
  destruct (C3_requested_format_selected VLC_CODEC_RGB24 codecs Hex)
    as (pre & c & post & d & Hsplit & Hpre & Hd & Hvlc & Hsel & _).
  exists pre, c, post, d. auto.
Defined.

Example negotiate_requested_RGB24 :
  InitVideo_negotiate VLC_CODEC_RGB24
    [ native_fmt V4L2_PIX_FMT_YUV420; emulated_fmt V4L2_PIX_FMT_BGR24;
      native_fmt V4L2_PIX_FMT_RGB24 ] = Some 14%nat.
Proof. reflexivity. Qed.

(** C4: the teardown of a memory-mapped session with two buffers. *)
Example DemuxClose_mmap_session :
  DemuxClose mmap_session =
  [ Ev_dqbuf; Ev_dqbuf; Ev_streamoff; Ev_munmap 0; Ev_munmap 1;
    Ev_free_buffers; Ev_controls_deinit; Ev_close 3; Ev_free_sys ].
Proof. reflexivity. Qed.

Lemma C4_DemuxClose_unmaps_after_streamoff_witness :
  io mmap_session = IO_METHOD_MMAP
  /\ (exists bufs, p_buffers mmap_session = Some bufs)
  /\ DemuxClose mmap_session !! 2%nat = Some Ev_streamoff
  /\ (forall i, (i < 2)%nat ->
        DemuxClose mmap_session !! (2 + 1 + i)%nat = Some (Ev_munmap i))
  /\ (forall i j, DemuxClose mmap_session !! j = Some (Ev_munmap i) ->
        (2 < j)%nat).
Proof.
  split; [reflexivity|]. split; [eexists; reflexivity|].
  exact (C4_DemuxClose_unmaps_after_streamoff mmap_session _ eq_refl eq_refl).
Defined.

(** C5: alternating fields on a 240-line field. *)
Lemma C5_interlacing_table_witness :
  NoDup v4l2_field_cases
  /\ field_denotes V4L2_FIELD_ALTERNATE Alternating_fields
  /\ InitVideo_interlacing V4L2_FIELD_ALTERNATE 0 240 = (0, 480, false).
Proof.
  assert (Hnd : NoDup v4l2_field_cases)
    by (apply (bool_decide_unpack _); vm_compute; exact I).
  split; [exact Hnd|]. split; [reflexivity|].
  exact (proj1 (C5_interlacing_table Alternating_fields
                  V4L2_FIELD_ALTERNATE 0 240 Hnd eq_refl)).
Defined.

Example interlacing_interleaved_bottom_top :
  InitVideo_interlacing V4L2_FIELD_INTERLACED_BT 0 480
  = (BLOCK_FLAG_BOTTOM_FIELD_FIRST, 480, false).
Proof. reflexivity. Qed.

(** [V4L2_FIELD_ANY] (0) is none of the named cases. *)
Example interlacing_unrecognized :
  InitVideo_interlacing 0 0 480 = (0, 480, true).
Proof. reflexivity. Qed.

(** C6: an interrupted [poll], then a [poll] that times out. *)
Lemma C6_poll_loop_witness :
  let interrupted :=
    {| poll_ret := -1; poll_errno := EINTR; poll_revents := 0 |} in
  let timeout := {| poll_ret := 0; poll_errno := 0; poll_revents := 0 |} in
  Forall poll_interrupted [interrupted]
  /\ Demux mmap_session (example_world [interrupted; timeout]) =
     Some (1, []).
Proof.
  intros interrupted timeout.
  assert (Hpre : Forall poll_interrupted [interrupted])
    by (repeat constructor).
  split; [exact Hpre|].
  destruct (C6_poll_loop mmap_session (example_world []) [interrupted]
              timeout [] Hpre) as (_ & _ & _ & Htimeout).
  exact (Htimeout eq_refl eq_refl).
Defined.

Example Demux_poll_error :
  Demux mmap_session
    (example_world [ {| poll_ret := -1; poll_errno := 5; poll_revents := 0 |} ])
  = Some (-1, [Msg_poll_error]).
Proof. reflexivity. Qed.

Example Demux_frame :
  Demux mmap_session
    (example_world [ {| poll_ret := 1; poll_errno := 0; poll_revents := 1 |} ])
  = Some (1, [ Es_out_set_pcr 1000000;
               Es_out_send (Some 0%nat)
                 {| i_buffer := 691200; i_pts := 1000000; i_dts := 1000000;
                    i_flags := 0 |} ]).
Proof. reflexivity. Qed.

(** C7: capture, streaming and read/write together give memory mapping. *)
Lemma C7_io_strategy_witness :
  Z.land 0x05000001 V4L2_CAP_VIDEO_CAPTURE <> 0
  /\ Z.land 0x05000001 V4L2_CAP_STREAMING <> 0
  /\ InitVideo_io 0x05000001 = Ok IO_METHOD_MMAP.
Proof.
  assert (Hc : Z.land 0x05000001 V4L2_CAP_VIDEO_CAPTURE <> 0)
    by (vm_compute; discriminate).
  assert (Hs : Z.land 0x05000001 V4L2_CAP_STREAMING <> 0)
    by (vm_compute; discriminate).
  split; [exact Hc|]. split; [exact Hs|].
  exact (proj1 (proj2 (C7_io_strategy 0x05000001)) Hc Hs).
Defined.

Example InitVideo_no_io_method :
  InitVideo (example_device 0x00000001 [native_fmt V4L2_PIX_FMT_YUYV] 1)
    {| cfg_chroma := None; cfg_aspect_ratio := None |} calloc_sys
  = Fail Err_no_io_method.
Proof. reflexivity. Qed.

(** C8: a device that enumerates one encoding the catalog does not hold. *)
Lemma C8_no_recognized_format_fails_witness :
  let dev :=
    example_device 0x05000001 [native_fmt (v4l2_fourcc "B" "A" "8" "1")] 1 in
  let cfg := {| cfg_chroma := None; cfg_aspect_ratio := None |} in
  Forall (fun c => vlc_from_v4l2_fourcc (pixelformat c) = None)
    (dev_enum_fmt dev)
  /\ InitVideo_negotiate (var_InheritFourCC (cfg_chroma cfg))
      (dev_enum_fmt dev) = None
  /\ InitVideo_ret (InitVideo dev cfg calloc_sys) = Some (-1)
  /\ InitVideo dev cfg calloc_sys = Fail Err_negotiate.
Proof.
  intros dev cfg.
  assert (Hno : Forall (fun c => vlc_from_v4l2_fourcc (pixelformat c) = None)
                  (dev_enum_fmt dev)) by (repeat constructor).
  split; [exact Hno|].
  destruct (C8_no_recognized_format_fails dev cfg calloc_sys Hno)
    as (Hneg & Hret & Hfail).
  split; [exact Hneg|]. split; [exact Hret|].
  exact (Hfail _ IO_METHOD_MMAP eq_refl eq_refl eq_refl).
Defined.

(** C9: "16:9" on a 720x480 frame. *)
Lemma C9_aspect_ratio_witness :
  0 < VOUT_ASPECT_FACTOR
  /\ 4 * VOUT_ASPECT_FACTOR <= INT_MAX
  /\ VOUT_ASPECT_FACTOR = 432000
  /\ InitVideo_aspect (Some "16:9"%string) = Some 768000
  /\ InitVideo_sar_num 768000 480 = 368640000
  /\ InitVideo_sar_den 720 = 311040000
  /\ InitVideo_sar_num 768000 480 * (9 * 720)
     = InitVideo_sar_den 720 * (16 * 480).
Proof.
  assert (Hpos : 0 < VOUT_ASPECT_FACTOR) by reflexivity.
  assert (Hmax : 4 * VOUT_ASPECT_FACTOR <= INT_MAX)
    by (vm_compute; discriminate).
  split; [exact Hpos|]. split; [exact Hmax|]. split; [reflexivity|].
  destruct (C9_aspect_ratio Hpos Hmax) as (_ & _ & _ & _ & _ & _ & Hsc).
  exact (Hsc eq_refl).
Defined.

Example InitVideo_16_9 :
  match
    InitVideo
      (example_device 0x05000001 [native_fmt V4L2_PIX_FMT_YUYV] 1)
      {| cfg_chroma := None; cfg_aspect_ratio := Some "16:9"%string |}
      calloc_sys
  with
  | Ok (sys', es) =>
    Some (io sys', i_nbuffers sys', i_codec es = VLC_CODEC_YUYV,
          i_width es, i_height es, i_sar_num es, i_sar_den es)
  | Fail _ => None
  end
  = Some (IO_METHOD_MMAP, 2%nat, VLC_CODEC_YUYV = VLC_CODEC_YUYV,
          720, 480, 368640000, 311040000).
Proof. reflexivity. Qed.

(** A whole [DemuxOpen]: RV24 is requested from a device that enumerates
    YUYV and then BGR24 with interleaved bottom-top frames. *)
Example DemuxOpen_RV24 :
  DemuxOpen
    {| ow_calloc := true; ow_path := Some "/dev/video0"%string;
       ow_rawfd := 3; ow_fd := -1;
       ow_device :=
         example_device 0x05000001
           [ native_fmt V4L2_PIX_FMT_YUYV; native_fmt V4L2_PIX_FMT_BGR24 ]
           V4L2_FIELD_INTERLACED_BT;
       ow_config := {| cfg_chroma := Some "RV24"%string;
                       cfg_aspect_ratio := None |};
       ow_controls := None |}
  = Some (VLC_SUCCESS,
          Some {| i_fd := 3; io := IO_METHOD_MMAP;
                  p_buffers :=
                    Some [ {| buf_start := 4096; buf_length := 691200 |};
                           {| buf_start := 696320; buf_length := 691200 |} ];
                  i_nbuffers := 2; blocksize := 0;
                  i_block_flags := BLOCK_FLAG_BOTTOM_FIELD_FIRST;
                  p_es := Some 0%nat; controls := None |}).
Proof. reflexivity. Qed.

Example aspect_default : InitVideo_aspect None = Some 576000.
Proof. reflexivity. Qed.

(** A zero after the ':' is a division by zero. *)
Example aspect_zero_divisor : InitVideo_aspect (Some "16:0"%string) = None.
Proof. reflexivity. Qed.

(** C10: YVYU with three distinct output objects. *)
Lemma C10_packed_yuv_offsets_witness :
  let r := GetPackedYuvOffsets (VLC_FOURCC "Y" "V" "Y" "U") 100 104 108 ∅ in
  NoDup CASE_PACKED_YUV_422
  /\ VLC_SUCCESS <> VLC_EGENERIC
  /\ r.1 = VLC_SUCCESS
  /\ offsets_written ∅ r.2 100 104 108 0 3 1.
Proof.
  intros r.
  assert (Hnd : NoDup CASE_PACKED_YUV_422)
    by (apply (bool_decide_unpack _); vm_compute; exact I).
  assert (Hse : VLC_SUCCESS <> VLC_EGENERIC) by discriminate.
  split; [exact Hnd|]. split; [exact Hse|].
  assert (Hyu : (100 : Z) <> 104) by discriminate.
  assert (Hyv : (100 : Z) <> 108) by discriminate.
  assert (Huv : (104 : Z) <> 108) by discriminate.
  destruct (C10_packed_yuv_offsets (VLC_FOURCC "Y" "V" "Y" "U") 100 104 108
              ∅ Hnd Hse Hyu Hyv Huv) as (_ & _ & _ & Hyvyu & _).
  exact (Hyvyu eq_refl).
Defined.

Example GetPackedYuvOffsets_other :
  GetPackedYuvOffsets (VLC_FOURCC "I" "4" "2" "0") 100 104 108 ∅
  = (VLC_EGENERIC, ∅).
Proof. reflexivity. Qed.

End Examples.

(** ** Further properties: the catalog lookup *)

Section MoreCatalog.
Context `{!videodev2_h, !vlc_h, !c_platform}.

Lemma find_v4l2_fourcc_earlier fourcc fmts i d dflt :
  find_v4l2_fourcc fourcc fmts i = Some d ->
  forall j, (i <= j < d)%nat -> v4l2 (nth (j - i) fmts dflt) <> fourcc.
Proof.
  revert i. induction fmts as [|f rest IH]; intros i; simpl; [discriminate|].
  destruct (v4l2 f =? fourcc) eqn:E.
  - intros [= <-] j Hj. lia.
  - intros Hd j Hj. destruct (decide (j = i)) as [->|Hne].
    + rewrite Nat.sub_diag. now apply Z.eqb_neq.
    + replace (j - i)%nat with (S (j - S i)) by lia.
      apply (IH _ Hd). lia.
Qed.

Lemma find_v4l2_fourcc_none fourcc fmts i :
  find_v4l2_fourcc fourcc fmts i = None <->
  Forall (fun f => v4l2 f <> fourcc) fmts.
Proof.
  revert i. induction fmts as [|f rest IH]; intros i; simpl.
  - split; [constructor | done].
  - destruct (Z.eqb_spec (v4l2 f) fourcc) as [Heq|Hne].
    + split; [done|]. intros Hall. apply Forall_cons in Hall as [Hf _]. done.
    + rewrite IH. split; [by constructor|].
      intros Hall. now apply Forall_cons in Hall as [_ Hall].
Qed.

(** X1.  What [vlc_from_v4l2_fourcc] returns points into the table, at an
    entry with the fourcc asked for, and at the first such entry. *)
Theorem vlc_from_v4l2_fourcc_first (fourcc : Z) (d : nat) :
  vlc_from_v4l2_fourcc fourcc = Some d ->
  (d < Datatypes.length v4l2_fmts)%nat
  /\ v4l2 (fmt_at d) = fourcc
  /\ forall j, (j < d)%nat -> v4l2 (fmt_at j) <> fourcc.
Proof.
  intros Hd. split; [now apply vlc_from_v4l2_fourcc_lt in Hd|].
  split; [now apply vlc_from_v4l2_fourcc_v4l2|].
  intros j Hj. unfold vlc_from_v4l2_fourcc in Hd. unfold fmt_at.
  pose proof (find_v4l2_fourcc_earlier _ _ _ _ (fmt_entry 0 0 0 0 0) Hd j)
    as Hearlier.
  rewrite Nat.sub_0_r in Hearlier. apply Hearlier. lia.
Qed.

(** X2.  [vlc_from_v4l2_fourcc] returns the null pointer exactly for the
    fourccs that no row of the table carries. *)
Theorem vlc_from_v4l2_fourcc_null (fourcc : Z) :
  vlc_from_v4l2_fourcc fourcc = None <->
  Forall (fun f => v4l2 f <> fourcc) v4l2_fmts.
Proof. apply find_v4l2_fourcc_none. Qed.

(** X3.  When the device-native fourccs of the table are pairwise distinct,
    looking up the fourcc of row [d] gives row [d] back, so that the rank of
    the entry found is the row of the fourcc. *)
Theorem vlc_from_v4l2_fourcc_row (d : nat) :
  NoDup (v4l2 <$> v4l2_fmts) ->
  (d < Datatypes.length v4l2_fmts)%nat ->
  vlc_from_v4l2_fourcc (v4l2 (fmt_at d)) = Some d
  /\ vlc_v4l2_fmt_rank (vlc_from_v4l2_fourcc (v4l2 (fmt_at d))) = Z.of_nat d.
Proof.
  intros Hnd Hd.
  assert (Hat : forall i, (i < Datatypes.length v4l2_fmts)%nat ->
                 (v4l2 <$> v4l2_fmts) !! i = Some (v4l2 (fmt_at i))).
  { intros i Hi. rewrite list_lookup_fmap. unfold fmt_at.
    destruct (nth_lookup_or_length v4l2_fmts i (fmt_entry 0 0 0 0 0))
      as [->|Hge]; [done | lia]. }
  assert (Hrow : vlc_from_v4l2_fourcc (v4l2 (fmt_at d)) = Some d).
  { destruct (vlc_from_v4l2_fourcc (v4l2 (fmt_at d))) as [d'|] eqn:E.
    - destruct (vlc_from_v4l2_fourcc_first _ _ E) as (Hd' & Hv & _).
      f_equal. apply (NoDup_lookup _ _ _ _ Hnd (Hat d' Hd')).
      rewrite Hv. now apply Hat.
    - apply vlc_from_v4l2_fourcc_null in E.
      rewrite List.Forall_forall in E. exfalso.
      apply (E (fmt_at d)); [|done]. unfold fmt_at. now apply nth_In. }
  split; [done|]. now rewrite Hrow.
Qed.

End MoreCatalog.

(** ** Further properties: the format negotiation *)

Section MoreNegotiation.
Context `{!videodev2_h, !vlc_h, !c_platform}.

Lemma enum_fmt_loop_from_enumeration reqfourcc codecs selected native d :
  enum_fmt_loop reqfourcc codecs selected native = Some d ->
  selected = Some d
  \/ exists c, c ∈ codecs /\ vlc_from_v4l2_fourcc (pixelformat c) = Some d.
Proof.
  revert selected native.
  induction codecs as [|c l IH]; intros selected native; simpl; [auto|].
  unfold enum_fmt_body.
  destruct (vlc_from_v4l2_fourcc (pixelformat c)) as [dsc|] eqn:E.
  - assert (Hhere : forall x, Some dsc = Some x ->
               exists c0, c0 ∈ c :: l
                 /\ vlc_from_v4l2_fourcc (pixelformat c0) = Some x).
    { intros x [= <-]. exists c. split; [constructor | done]. }
    assert (Hlater : forall s n,
               enum_fmt_loop reqfourcc l s n = Some d ->
               s = selected \/ s = Some dsc ->
               selected = Some d
               \/ exists c0, c0 ∈ c :: l
                    /\ vlc_from_v4l2_fourcc (pixelformat c0) = Some d).
    { intros s n Hrun Hs. destruct (IH _ _ Hrun) as [Hsel|(c0 & Hin & Hc0)].
      - destruct Hs as [->| ->]; [by left | right; by apply Hhere].
      - right. exists c0. split; [by constructor | done]. }
    destruct (_ =? reqfourcc); [intros Hd; right; by apply Hhere|].
    destruct (_ && _); [intros Hd; eapply Hlater; eauto|].
    destruct (_ >? _); intros Hd; eapply Hlater; eauto.
  - intros Hd. destruct (IH _ _ Hd) as [Hsel|(c0 & Hin & Hc0)]; [by left|].
    right. exists c0. split; [by constructor | done].
Qed.

(** X4.  The format negotiation selects nothing but the catalog entry of an
    encoding the device enumerated, and what it selects points into the
    table. *)
Theorem InitVideo_negotiate_enumerated
  (reqfourcc : Z) (codecs : list v4l2_fmtdesc) (d : nat) :
  InitVideo_negotiate reqfourcc codecs = Some d ->
  (d < Datatypes.length v4l2_fmts)%nat
  /\ exists c, c ∈ codecs
       /\ vlc_from_v4l2_fourcc (pixelformat c) = Some d
       /\ v4l2 (fmt_at d) = pixelformat c.
Proof.
  intros Hd. unfold InitVideo_negotiate in Hd.
  destruct (enum_fmt_loop_from_enumeration _ _ _ _ _ Hd)
    as [Hnone|(c & Hin & Hc)]; [done|].
  split; [now apply vlc_from_v4l2_fourcc_lt in Hc|].
  exists c. split; [done|]. split; [done|].
  now apply vlc_from_v4l2_fourcc_v4l2.
Qed.

Lemma enum_fmt_loop_recognized reqfourcc codecs selected native :
  enum_fmt_loop reqfourcc (List.filter recognized codecs) selected native =
  enum_fmt_loop reqfourcc codecs selected native.
Proof.
  revert selected native.
  induction codecs as [|c l IH]; intros selected native; simpl; [done|].
  unfold recognized at 1.
  destruct (vlc_from_v4l2_fourcc (pixelformat c)) as [dsc|] eqn:E.
  - simpl.
    destruct (enum_fmt_body reqfourcc c selected native)
      as [[s n]|[s n]]; [done | apply IH].
  - unfold enum_fmt_body. rewrite E. apply IH.
Qed.

(** X5.  Encodings that the catalog does not hold have no influence on the
    negotiation: dropping them from the enumeration gives the same
    selection. *)
Theorem InitVideo_negotiate_ignores_unrecognized
  (reqfourcc : Z) (codecs : list v4l2_fmtdesc) :
  InitVideo_negotiate reqfourcc (List.filter recognized codecs) =
  InitVideo_negotiate reqfourcc codecs.
Proof. apply enum_fmt_loop_recognized. Qed.

Lemma enum_fmt_loop_keeps_selection reqfourcc codecs s native :
  exists d, enum_fmt_loop reqfourcc codecs (Some s) native = Some d.
Proof.
  revert s native. induction codecs as [|c l IH]; intros s native; simpl;
    [eauto|].
  unfold enum_fmt_body.
  destruct (vlc_from_v4l2_fourcc (pixelformat c)) as [dsc|]; [|apply IH].
  destruct (_ =? reqfourcc); [eauto|].
  destruct (_ && _); [apply IH|]. destruct (_ >? _); apply IH.
Qed.

(** X6.  The negotiation fails exactly when no enumerated encoding is in the
    catalog: one recognized encoding, emulated or not, requested or not, is
    enough for a selection. *)
Theorem InitVideo_negotiate_fails_iff
  (reqfourcc : Z) (codecs : list v4l2_fmtdesc) :
  65535 <= SIZE_MAX ->
  (InitVideo_negotiate reqfourcc codecs = None <->
   Forall (fun c => vlc_from_v4l2_fourcc (pixelformat c) = None) codecs).
Proof.
  intros Hmax. split; [|apply enum_fmt_loop_unrecognized].
  unfold InitVideo_negotiate.
  induction codecs as [|c l IH]; [constructor|].
  simpl. unfold enum_fmt_body.
  destruct (vlc_from_v4l2_fourcc (pixelformat c)) as [dsc|] eqn:E.
  - pose proof (vlc_from_v4l2_fourcc_lt _ _ E) as Hlt.
    pose proof v4l2_fmts_length as Hlen.
    destruct (_ =? reqfourcc); [done|]. rewrite andb_false_r. simpl.
    destruct (Z.gtb_spec (Z.of_nat dsc) SIZE_MAX); [lia|].
    intros Hnone.
    destruct (enum_fmt_loop_keeps_selection reqfourcc l dsc
                (if has_flag (flags c) V4L2_FMT_FLAG_EMULATED
                 then false else true)) as (d & Hd).
    congruence.
  - intros Hnone. constructor; [done | now apply IH].
Qed.

Lemma enum_fmt_loop_unmatched_request req1 req2 codecs selected native :
  Forall (fun c => matches_request req1 c = false) codecs ->
  Forall (fun c => matches_request req2 c = false) codecs ->
  enum_fmt_loop req1 codecs selected native =
  enum_fmt_loop req2 codecs selected native.
Proof.
  intros Hno1. revert selected native.
  induction Hno1 as [|c l Hc1 _ IH]; intros selected native Hno2; [done|].
  apply Forall_cons in Hno2 as [Hc2 Hno2]. simpl.
  rewrite (enum_fmt_body_no_match _ _ _ _ Hc1),
    (enum_fmt_body_no_match _ _ _ _ Hc2).
  destruct (vlc_from_v4l2_fourcc (pixelformat c)); [|now apply IH].
  destruct (_ && _); now apply IH.
Qed.

(** X7.  A request that no enumerated encoding satisfies is ignored: the
    selection is the one made when nothing is requested. *)
Theorem InitVideo_negotiate_unmatched_request
  (reqfourcc : Z) (codecs : list v4l2_fmtdesc) :
  catalog_codecs_nonzero ->
  Forall (fun c => matches_request reqfourcc c = false) codecs ->
  InitVideo_negotiate reqfourcc codecs =
  InitVideo_negotiate (var_InheritFourCC None) codecs.
Proof.
  intros Hnz Hno. apply enum_fmt_loop_unmatched_request; [done|].
  apply List.Forall_forall. intros c _. now apply matches_request_null.
Qed.

End MoreNegotiation.

(** ** Further properties: [InitVideo] and [DemuxOpen] *)

Section MoreSetup.
Context `{!videodev2_h, !vlc_h, !c_platform}.

(** What a successful [InitVideo] leaves in the session. *)
Lemma InitVideo_Ok_session dev cfg sys sys' es :
  InitVideo dev cfg sys = Ok (sys', es) ->
  i_fd sys' = i_fd sys /\ controls sys' = controls sys
  /\ p_es sys' = dev_es_out_add dev es
  /\ exists selected fmt,
       InitVideo_negotiate (var_InheritFourCC (cfg_chroma cfg))
         (dev_enum_fmt dev) = Some selected
       /\ dev_setup_format dev (v4l2 (fmt_at selected)) = Some fmt
       /\ match io sys' with
          | IO_METHOD_READ =>
            p_buffers sys' = p_buffers sys
            /\ i_nbuffers sys' = i_nbuffers sys
            /\ blocksize sys' = sizeimage fmt
          | IO_METHOD_MMAP =>
            exists bufs,
              dev_init_mmap dev = Some bufs
              /\ p_buffers sys' = Some bufs
              /\ i_nbuffers sys' = Datatypes.length bufs
              /\ forallb (dev_qbuf dev) (seq 0 (Datatypes.length bufs)) = true
              /\ dev_streamon dev = true
              /\ blocksize sys' = blocksize sys
          end.
Proof.
  unfold InitVideo. intros Hok.
  destruct (dev_querycap dev) as [cap|]; simpl in Hok; [|done].
  destruct (InitVideo_io (InitVideo_caps cap)) as [io_sel|];
    simpl in Hok; [|done].
  destruct (dev_setup_input dev); simpl in Hok; [|done].
  destruct (InitVideo_negotiate _ _) as [selected|] eqn:Hneg;
    simpl in Hok; [|done].
  destruct (dev_setup_format dev _) as [fmt|] eqn:Hfmt; simpl in Hok; [|done].
  destruct (InitVideo_interlacing _ _ _) as [[bf h] wn].
  destruct (InitVideo_aspect _) as [ar|]; simpl in Hok; [|done].
  unfold InitVideo_init_io in Hok. destruct io_sel; simpl in Hok.
  - injection Hok as <- <-. simpl. do 3 (split; [done|]).
    exists selected, fmt. done.
  - destruct (dev_init_mmap dev) as [bufs|]; simpl in Hok; [|done].
    destruct (forallb _ _) eqn:Hq; simpl in Hok; [|done].
    destruct (dev_streamon dev) eqn:Hs; simpl in Hok; [|done].
    injection Hok as <- <-. simpl. do 3 (split; [done|]).
    exists selected, fmt. do 2 (split; [done|]). exists bufs. done.
Qed.

(** X8.  [InitVideo] returns 0 exactly when the capability query, the
    choice of the I/O method, the input set-up, the negotiation, the format
    set-up and the aspect-ratio arithmetic succeed and, for memory mapping,
    the buffers are mapped, all queued and streaming starts. *)
Theorem InitVideo_returns_0_iff
  (dev : v4l2_device) (cfg : v4l2_config) (sys : demux_sys_t) :
  InitVideo_ret (InitVideo dev cfg sys) = Some 0 <->
  exists cap io_sel selected fmt ar,
    dev_querycap dev = Some cap
    /\ InitVideo_io (InitVideo_caps cap) = Ok io_sel
    /\ dev_setup_input dev = true
    /\ InitVideo_negotiate (var_InheritFourCC (cfg_chroma cfg))
         (dev_enum_fmt dev) = Some selected
    /\ dev_setup_format dev (v4l2 (fmt_at selected)) = Some fmt
    /\ InitVideo_aspect (cfg_aspect_ratio cfg) = Some ar
    /\ (io_sel = IO_METHOD_READ
        \/ exists bufs, dev_init_mmap dev = Some bufs
             /\ forallb (dev_qbuf dev) (seq 0 (Datatypes.length bufs)) = true
             /\ dev_streamon dev = true).
Proof.
  split.
  - destruct (InitVideo dev cfg sys) as [[sys' es]|e] eqn:Hok;
      [|destruct e; discriminate].
    intros _.
    destruct (InitVideo_Ok_inv _ _ _ _ _ Hok)
      as (cap & sel & fmt & ar & Hcap & Hio & Hin & Hneg & Hfmt & Har & _).
    destruct (InitVideo_Ok_session _ _ _ _ _ Hok)
      as (_ & _ & _ & sel' & fmt' & _ & _ & Hbuf).
    exists cap, (io sys'), sel, fmt, ar. do 6 (split; [done|]).
    destruct (io sys'); [by left|].
    destruct Hbuf as (bufs & Hm & _ & _ & Hq & Hs & _). right. eauto.
  - intros (cap & io_sel & sel & fmt & ar & Hcap & Hio & Hin & Hneg & Hfmt
            & Har & Hinit).
    eapply InitVideo_succeeds; eauto.
Qed.

(** X9.  The only pixel format [InitVideo] asks [SetupFormat] for is one the
    device enumerated, and the stream it publishes has the output encoding
    of the catalog row of that same format and the geometry and frame
    interval that [SetupFormat] answered. *)
Theorem InitVideo_format_enumerated
  (dev : v4l2_device) (cfg : v4l2_config) (sys sys' : demux_sys_t)
  (es : es_format_t) :
  InitVideo dev cfg sys = Ok (sys', es) ->
  exists c d fmt,
    c ∈ dev_enum_fmt dev
    /\ vlc_from_v4l2_fourcc (pixelformat c) = Some d
    /\ dev_setup_format dev (pixelformat c) = Some fmt
    /\ i_codec es = vlc (fmt_at d)
    /\ i_width es = width fmt
    /\ i_frame_rate es = timeperframe_denominator fmt
    /\ i_frame_rate_base es = timeperframe_numerator fmt.
Proof.
  intros Hok.
  destruct (InitVideo_Ok_inv _ _ _ _ _ Hok)
    as (cap & sel & fmt & ar & _ & _ & _ & Hneg & Hfmt & _ & _ & ->).
  destruct (InitVideo_negotiate_enumerated _ _ _ Hneg)
    as (_ & c & Hin & Hc & Hpix).
  exists c, sel, fmt. do 2 (split; [done|]).
  rewrite <- Hpix. split; [done|]. simpl. done.
Qed.

Lemma v4l2_fmts_masks_disjoint :
  Forall (fun f => masks_disjoint (red f) (green f) (blue f)) v4l2_fmts.
Proof.
  unfold v4l2_fmts, v4l2_fmts_rgb, v4l2_fmts_h264.
  destruct WORDS_BIGENDIAN, V4L2_PIX_FMT_H264; simpl;
    repeat constructor.
Qed.

(** X10.  The red, green and blue masks of the stream [InitVideo] publishes
    never overlap, on either byte order. *)
Theorem InitVideo_masks_disjoint
  (dev : v4l2_device) (cfg : v4l2_config) (sys sys' : demux_sys_t)
  (es : es_format_t) :
  InitVideo dev cfg sys = Ok (sys', es) ->
  masks_disjoint (i_rmask es) (i_gmask es) (i_bmask es).
Proof.
  intros Hok.
  destruct (InitVideo_Ok_inv _ _ _ _ _ Hok)
    as (cap & sel & fmt & ar & _ & _ & _ & Hneg & _ & _ & _ & ->).
  destruct (InitVideo_negotiate_enumerated _ _ _ Hneg) as (Hlt & _).
  pose proof v4l2_fmts_masks_disjoint as Hall.
  rewrite List.Forall_forall in Hall. simpl.
  apply Hall. unfold fmt_at. now apply nth_In.
Qed.

(** X11.  When the frame has the display aspect ratio, the sample aspect
    ratio that is published is 1:1: for the default ratio on a frame with
    3 x width = 4 x height, and for a string "W:H" on a frame with
    H x width = W x height. *)
Theorem InitVideo_sar_square (wdt hgt : Z) :
  0 < VOUT_ASPECT_FACTOR -> 4 * VOUT_ASPECT_FACTOR <= INT_MAX ->
  ((3 | VOUT_ASPECT_FACTOR) -> 3 * wdt = 4 * hgt ->
   exists ar, InitVideo_aspect None = Some ar
     /\ InitVideo_sar_num ar hgt = InitVideo_sar_den wdt)
  /\ (forall s delim w h,
        strchr s ":" = Some delim ->
        atoi s = Some w -> atoi (str_next delim) = Some h -> h <> 0 ->
        INT_MIN < w * VOUT_ASPECT_FACTOR <= INT_MAX ->
        (h | w * VOUT_ASPECT_FACTOR) -> h * wdt = w * hgt ->
        exists ar, InitVideo_aspect (Some s) = Some ar
          /\ InitVideo_sar_num ar hgt = InitVideo_sar_den wdt).
Proof.
  intros Hpos Hmax. split.
  - intros [k Hk] Hframe. eexists. split.
    + apply InitVideo_aspect_default; auto.
    + unfold InitVideo_sar_num, InitVideo_sar_den. f_equal.
      rewrite Hk. replace (4 * (k * 3)) with (4 * k * 3) by lia.
      rewrite Z.quot_mul by done. nia.
  - intros s delim w h Hdelim Hw Hh Hnz Hrange [k Hk] Hframe.
    eexists. split.
    + eapply InitVideo_aspect_ratio; eauto.
    + unfold InitVideo_sar_num, InitVideo_sar_den. f_equal.
      rewrite Hk, Z.quot_mul by done.
      apply (Z.mul_reg_r _ _ h Hnz).
      transitivity (k * h * hgt); [ring|]. rewrite <- Hk.
      transitivity (VOUT_ASPECT_FACTOR * (w * hgt)); [ring|].
      rewrite <- Hframe. ring.
Qed.

(** X12.  [DemuxOpen] keeps a session exactly when it returns
    [VLC_SUCCESS]; it returns [VLC_ENOMEM] when [calloc] fails; and a
    session that is kept was opened from a device path, on a descriptor
    other than -1 which is the one of libv4l2 unless libv4l2 refused, in
    which case it is the raw descriptor. *)
Theorem DemuxOpen_result
  (w : open_world) (r : Z) (s : option demux_sys_t) :
  VLC_SUCCESS <> VLC_ENOMEM -> VLC_SUCCESS <> VLC_EGENERIC ->
  DemuxOpen w = Some (r, s) ->
  (r = VLC_SUCCESS <-> is_Some s)
  /\ (ow_calloc w = false -> r = VLC_ENOMEM)
  /\ (forall sys, s = Some sys ->
        is_Some (ow_path w) /\ ow_rawfd w <> -1
        /\ i_fd sys <> -1
        /\ i_fd sys = (if ow_fd w =? -1 then ow_rawfd w else ow_fd w)
        /\ controls sys = ow_controls w).
Proof.
  intros Hmem Hgen. unfold DemuxOpen.
  destruct (ow_calloc w); simpl.
  2:{ intros [= <- <-]. split; [|split; [done|done]].
      split; [done | by intros [? ?]]. }
  destruct (ow_path w) as [path|].
  2:{ intros [= <- <-]. split; [|split; [done|done]].
      split; [done | by intros [? ?]]. }
  destruct (Z.eqb_spec (ow_rawfd w) (-1)) as [Hraw|Hraw].
  { intros [= <- <-]. split; [|split; [done|done]].
    split; [done | by intros [? ?]]. }
  destruct (InitVideo _ _ _) as [[sys0 es]|e].
  - intros [= <- <-]. split; [split; eauto|]. split; [done|].
    intros sys [= <-]. simpl. split; [eauto|]. split; [done|].
    split; [|done]. destruct (Z.eqb_spec (ow_fd w) (-1)); done.
  - destruct e; intros [= <- <-];
      (split; [|split; [done|done]]); split; try done; by intros [? ?].
Qed.

(** X13.  In a session that [DemuxOpen] keeps, a memory-mapped session owns
    the buffers [InitMmap] mapped, [i_nbuffers] is their number, each was
    queued and streaming was started; a read session owns no buffer array
    and reads blocks of the image size [SetupFormat] answered. *)
Theorem DemuxOpen_session_buffers
  (w : open_world) (r : Z) (sys : demux_sys_t) :
  DemuxOpen w = Some (r, Some sys) ->
  match io sys with
  | IO_METHOD_MMAP =>
    exists bufs,
      dev_init_mmap (ow_device w) = Some bufs
      /\ p_buffers sys = Some bufs
      /\ i_nbuffers sys = Datatypes.length bufs
      /\ forallb (dev_qbuf (ow_device w)) (seq 0 (Datatypes.length bufs))
         = true
      /\ dev_streamon (ow_device w) = true
  | IO_METHOD_READ =>
    p_buffers sys = None /\ i_nbuffers sys = 0%nat
    /\ exists c fmt,
         c ∈ dev_enum_fmt (ow_device w)
         /\ dev_setup_format (ow_device w) (pixelformat c) = Some fmt
         /\ blocksize sys = sizeimage fmt
  end.
Proof.
  intros Hopen.
  destruct (DemuxOpen_session _ _ _ Hopen)
    as (_ & sys0 & es & Hok & Hio & _ & Hbs & Hbuf & Hn).
  destruct (InitVideo_Ok_session _ _ _ _ _ Hok)
    as (_ & _ & _ & sel & fmt & Hneg & Hfmt & Hmode).
  rewrite Hio, Hbs, Hbuf, Hn. destruct (io sys0).
  - destruct Hmode as (-> & -> & ->). do 2 (split; [done|]).
    destruct (InitVideo_negotiate_enumerated _ _ _ Hneg)
      as (_ & c & Hin & _ & Hpix).
    exists c, fmt. rewrite <- Hpix. done.
  - destruct Hmode as (bufs & Hm & Hp & Hlen & Hq & Hs & _).
    exists bufs. done.
Qed.

End MoreSetup.

(** ** Further properties: the teardown *)

Section MoreTeardown.
Context `{!videodev2_h, !vlc_h, !c_platform}.

Lemma munmaps_app tr1 tr2 : munmaps (tr1 ++ tr2) = munmaps tr1 ++ munmaps tr2.
Proof. apply omap_app. Qed.

Lemma munmaps_dqbuf n : munmaps (replicate n Ev_dqbuf) = [].
Proof. induction n as [|n IH]; [done | exact IH]. Qed.

Lemma munmaps_munmap l : munmaps (map Ev_munmap l) = l.
Proof. induction l as [|i l IH]; [done|]. simpl. now rewrite IH. Qed.

Lemma dqbufs_app tr1 tr2 : dqbufs (tr1 ++ tr2) = (dqbufs tr1 + dqbufs tr2)%nat.
Proof. unfold dqbufs. now rewrite List.filter_app, length_app. Qed.

Lemma dqbufs_dqbuf n : dqbufs (replicate n Ev_dqbuf) = n.
Proof.
  induction n as [|n IH]; [done|]. unfold dqbufs in *. simpl. now rewrite IH.
Qed.

Lemma dqbufs_munmap l : dqbufs (map Ev_munmap l) = 0%nat.
Proof. induction l as [|i l IH]; [done | exact IH]. Qed.

(** X14.  Whatever the session, [DemuxClose] unmaps the buffers 0 to
    [i_nbuffers] - 1 once each and in order when the session is memory
    mapped and has a buffer array, and unmaps nothing otherwise; it asks
    for a buffer back [i_nbuffers] times when the session is memory mapped,
    array or not, and never in read mode. *)
Theorem DemuxClose_buffers (sys : demux_sys_t) :
  munmaps (DemuxClose sys) =
    match io sys, p_buffers sys with
    | IO_METHOD_MMAP, Some _ => seq 0 (i_nbuffers sys)
    | _, _ => []
    end
  /\ NoDup (munmaps (DemuxClose sys))
  /\ dqbufs (DemuxClose sys) =
     match io sys with
     | IO_METHOD_MMAP => i_nbuffers sys
     | IO_METHOD_READ => 0%nat
     end.
Proof.
  assert (Hm : munmaps (DemuxClose sys) =
               match io sys, p_buffers sys with
               | IO_METHOD_MMAP, Some _ => seq 0 (i_nbuffers sys)
               | _, _ => []
               end).
  { unfold DemuxClose, DemuxClose_stop, DemuxClose_free.
    destruct (io sys), (p_buffers sys);
      rewrite ?munmaps_app, ?munmaps_dqbuf, ?munmaps_munmap; simpl;
      now rewrite ?app_nil_r. }
  split; [exact Hm|]. split.
  - rewrite Hm. destruct (io sys), (p_buffers sys);
      first [apply NoDup_nil_2 | apply NoDup_seq].
  - unfold DemuxClose, DemuxClose_stop, DemuxClose_free.
    destruct (io sys), (p_buffers sys);
      rewrite ?dqbufs_app, ?dqbufs_dqbuf, ?dqbufs_munmap;
      unfold dqbufs; simpl; lia.
Qed.

(** X15.  Closing a read session that [DemuxOpen] opened releases the
    controls, closes the descriptor the session was opened on and frees the
    session, and does nothing else: such a session has no buffer array, so
    nothing is freed or unmapped for it. *)
Theorem DemuxClose_after_open_read
  (w : open_world) (r : Z) (sys : demux_sys_t) :
  DemuxOpen w = Some (r, Some sys) -> io sys = IO_METHOD_READ ->
  DemuxClose sys =
  [ Ev_controls_deinit;
    Ev_close (if ow_fd w =? -1 then ow_rawfd w else ow_fd w);
    Ev_free_sys ].
Proof.
  intros Hopen Hio.
  pose proof (DemuxOpen_session_buffers _ _ _ Hopen) as Hbuf.
  rewrite Hio in Hbuf. destruct Hbuf as (Hp & _).
  unfold DemuxClose, DemuxClose_stop, DemuxClose_free. rewrite Hio, Hp.
  simpl. unfold DemuxOpen in Hopen.
  destruct (ow_calloc w); [|done]. simpl in Hopen.
  destruct (ow_path w); [|done]. destruct (ow_rawfd w =? -1); [done|].
  destruct (InitVideo _ _ _) as [[sys0 es]|e]; [|by destruct e].
  now injection Hopen as _ <-.
Qed.

(** X16.  Closing a memory-mapped session that [DemuxOpen] opened asks for
    a buffer back as many times as [InitMmap] mapped buffers, and unmaps
    each of these buffers once: none stays mapped, none is unmapped
    twice. *)
Theorem DemuxClose_after_open_mmap
  (w : open_world) (r : Z) (sys : demux_sys_t) :
  DemuxOpen w = Some (r, Some sys) -> io sys = IO_METHOD_MMAP ->
  exists bufs,
    dev_init_mmap (ow_device w) = Some bufs
    /\ munmaps (DemuxClose sys) = seq 0 (Datatypes.length bufs)
    /\ dqbufs (DemuxClose sys) = Datatypes.length bufs.
Proof.
  intros Hopen Hio.
  pose proof (DemuxOpen_session_buffers _ _ _ Hopen) as Hbuf.
  rewrite Hio in Hbuf. destruct Hbuf as (bufs & Hm & Hp & Hn & _).
  exists bufs. split; [done|].
  destruct (DemuxClose_buffers sys) as (Hun & _ & Hdq).
  rewrite Hun, Hdq, Hio, Hp, Hn. done.
Qed.

End MoreTeardown.

(** ** Further properties: the capture cycle *)

Section MoreCapture.
Context `{!videodev2_h, !vlc_h, !c_platform}.

(** X17.  [Demux] does not return only while every [poll] so far was
    interrupted: it returns as soon as one [poll] call succeeds or fails
    with an error other than [EINTR]. *)
Theorem Demux_returns_iff (sys : demux_sys_t) (w : capture_world) :
  Demux sys w = None <-> Forall poll_interrupted (w_polls w).
Proof.
  assert (Hpoll : forall polls,
             Demux_poll polls = None <-> Forall poll_interrupted polls).
  { induction polls as [|p l IH]; simpl; [split; [constructor | done]|].
    unfold poll_interrupted at 1.
    destruct (Z.eqb_spec (poll_ret p) (-1)) as [Hret|Hret].
    - destruct (Z.eqb_spec (poll_errno p) EINTR) as [Herr|Herr]; simpl.
      + rewrite IH. split; [by constructor|].
        intros Hall. now apply Forall_cons in Hall as [_ Hall].
      + split; [done|]. intros Hall.
        apply Forall_cons in Hall as [[_ Hp] _]. done.
    - split; [done|]. intros Hall.
      apply Forall_cons in Hall as [[Hp _] _]. done. }
  rewrite <- Hpoll. unfold Demux.
  destruct (Demux_poll (w_polls w)) as [[|revents]|]; [done| |done].
  destruct (revents =? 0); [done|].
  destruct (match io sys with
            | IO_METHOD_READ => BlockRead w (blocksize sys)
            | IO_METHOD_MMAP => (w_grab w, [])
            end) as [[b|] msgs]; done.
Qed.

Lemma BlockRead_messages w size b msgs :
  BlockRead w size = (b, msgs) ->
  msgs = [] \/ (b = None /\ msgs = [Msg_cannot_read]).
Proof.
  unfold BlockRead. destruct (w_block_alloc w); [|intros [= <- <-]; auto].
  destruct (_ =? -1); [|intros [= <- <-]; auto].
  destruct (_ =? EAGAIN); intros [= <- <-]; auto.
Qed.

(** X18.  [Demux] returns -1 or 1 and nothing else.  It returns -1 only
    after "poll error", having sent nothing; when it returns 1 it has sent
    at most one block, and a failure to obtain the block (allocation, read
    error, nothing grabbed) is not an error for the caller. *)
Theorem Demux_return_values
  (sys : demux_sys_t) (w : capture_world) (r : Z)
  (evs : list demux_event) :
  Demux sys w = Some (r, evs) ->
  (r = -1 /\ evs = [Msg_poll_error])
  \/ (r = 1 /\ (Msg_poll_error ∉ evs)
      /\ (Datatypes.length (sent_blocks evs) <= 1)%nat).
Proof.
  unfold Demux.
  destruct (Demux_poll (w_polls w)) as [[|revents]|]; [| |done].
  - intros [= <- <-]. now left.
  - intros Hret. right. destruct (revents =? 0).
    { injection Hret as <- <-. split; [done|]. split; [|simpl; lia].
      apply not_elem_of_nil. }
    destruct (match io sys with
              | IO_METHOD_READ => BlockRead w (blocksize sys)
              | IO_METHOD_MMAP => (w_grab w, [])
              end) as [b msgs] eqn:Hb.
    assert (Hmsgs : msgs = [] \/ msgs = [Msg_cannot_read]).
    { destruct (io sys).
      - destruct (BlockRead_messages _ _ _ _ Hb) as [->|[_ ->]]; auto.
      - injection Hb as _ <-. auto. }
    destruct b as [b|]; injection Hret as <- <-; (split; [done|]);
      destruct Hmsgs as [->| ->]; simpl; split;
      try lia; intros Hin;
      repeat (apply elem_of_cons in Hin as [Hin|Hin]; [discriminate|]);
      now apply elem_of_nil in Hin.
Qed.

Lemma land_lor_absorb a b : Z.land (Z.lor a b) b = b.
Proof.
  apply Z.bits_inj'. intros n Hn.
  rewrite Z.land_spec, Z.lor_spec.
  now destruct (Z.testbit a n), (Z.testbit b n).
Qed.

(** X19.  A block that [Demux] sends goes to the stream of the session,
    right after the reference clock was set to the block's time; its
    presentation and decoding times are both the [mdate] of the cycle, and
    its flags contain every flag of the session. *)
Theorem Demux_sent_block
  (sys : demux_sys_t) (w : capture_world) (r : Z)
  (evs : list demux_event) (es : option nat) (b : block_t) :
  Demux sys w = Some (r, evs) -> Es_out_send es b ∈ evs ->
  r = 1 /\ es = p_es sys
  /\ i_pts b = w_mdate w /\ i_dts b = w_mdate w
  /\ Z.land (i_flags b) (i_block_flags sys) = i_block_flags sys
  /\ exists msgs,
       evs = msgs ++ [Es_out_set_pcr (i_pts b); Es_out_send es b]
       /\ (msgs = [] \/ msgs = [Msg_cannot_read]).
Proof.
  unfold Demux.
  destruct (Demux_poll (w_polls w)) as [[|revents]|]; [| |done].
  { intros [= <- <-] Hin. apply elem_of_cons in Hin as [Hin|Hin];
      [discriminate | now apply elem_of_nil in Hin]. }
  destruct (revents =? 0).
  { intros [= <- <-] Hin. now apply elem_of_nil in Hin. }
  destruct (match io sys with
            | IO_METHOD_READ => BlockRead w (blocksize sys)
            | IO_METHOD_MMAP => (w_grab w, [])
            end) as [blk msgs] eqn:Hb.
  assert (Hmsgs : msgs = [] \/ msgs = [Msg_cannot_read]).
  { destruct (io sys).
    - destruct (BlockRead_messages _ _ _ _ Hb) as [->|[_ ->]]; auto.
    - injection Hb as _ <-. auto. }
  destruct blk as [blk|]; intros [= <- <-] Hin.
  - assert (Hsend : Es_out_send es b =
                    Es_out_send (p_es sys)
                      {| i_buffer := i_buffer blk; i_pts := w_mdate w;
                         i_dts := w_mdate w;
                         i_flags := Z.lor (i_flags blk) (i_block_flags sys) |}).
    { apply elem_of_app in Hin as [Hin|Hin].
      - destruct Hmsgs as [->| ->].
        + now apply elem_of_nil in Hin.
        + apply elem_of_cons in Hin as [Hin|Hin];
            [discriminate | now apply elem_of_nil in Hin].
      - apply elem_of_cons in Hin as [Hin|Hin]; [discriminate|].
        apply elem_of_cons in Hin as [Hin|Hin];
          [done | now apply elem_of_nil in Hin]. }
    injection Hsend as -> ->. simpl. do 4 (split; [done|]).
    split; [apply land_lor_absorb|]. exists msgs. done.
  - destruct Hmsgs as [->| ->].
    + now apply elem_of_nil in Hin.
    + apply elem_of_cons in Hin as [Hin|Hin];
        [discriminate | now apply elem_of_nil in Hin].
Qed.

(** X20.  In read mode a cycle whose [poll] reports an event sends a block
    exactly when the block is allocated and [v4l2_read] does not return -1;
    the block then has the length that was read.  A failed read is reported
    with "cannot read frame" unless [errno] is [EAGAIN], and the cycle
    returns 1 all the same. *)
Theorem Demux_read_mode
  (sys : demux_sys_t) (w : capture_world) (p : poll_result)
  (rest : list poll_result) :
  io sys = IO_METHOD_READ -> w_polls w = p :: rest ->
  poll_ret p <> -1 -> poll_revents p <> 0 ->
  exists evs,
    Demux sys w = Some (1, evs)
    /\ match w_block_alloc w with
       | None => evs = []
       | Some _ =>
         if w_read_ret w =? -1
         then evs = (if w_read_errno w =? EAGAIN then []
                     else [Msg_cannot_read])
         else exists b,
                sent_blocks evs = [b] /\ i_buffer b = w_read_ret w
       end.
Proof.
  intros Hio Hpolls Hret Hrev. unfold Demux. rewrite Hpolls. simpl.
  rewrite (proj2 (Z.eqb_neq _ _) Hret), (proj2 (Z.eqb_neq _ _) Hrev), Hio.
  unfold BlockRead. destruct (w_block_alloc w) as [blk|]; [|eauto].
  destruct (w_read_ret w =? -1).
  - destruct (w_read_errno w =? EAGAIN); eauto.
  - eexists. split; [done|]. eexists. simpl. done.
Qed.

Lemma InitVideo_interlacing_bottom_top bf h :
  NoDup v4l2_field_cases ->
  InitVideo_interlacing V4L2_FIELD_INTERLACED_BT bf h
  = (BLOCK_FLAG_BOTTOM_FIELD_FIRST, h, false).
Proof.
  unfold v4l2_field_cases, InitVideo_interlacing. intros Hnd.
  repeat match goal with
         | H : NoDup (_ :: _) |- _ => apply NoDup_cons in H as [? H]
         end.
  repeat match goal with
         | H : _ ∉ _ :: _ |- _ => apply not_elem_of_cons in H as [? H]
         end.
  repeat match goal with
         | |- context [?a =? ?b] =>
           first [ rewrite (Z.eqb_refl a)
                 | rewrite (proj2 (Z.eqb_neq a b)) by congruence ]
         end.
  reflexivity.
Qed.

(** X21.  Every block sent in a session that [DemuxOpen] opened on a device
    whose frames are interleaved bottom-top carries the bottom-field-first
    flag. *)
Theorem Demux_after_open_bottom_first
  (ow : open_world) (r : Z) (sys : demux_sys_t) (w : capture_world)
  (ret : Z) (evs : list demux_event) (es : option nat) (b : block_t) :
  NoDup v4l2_field_cases ->
  (forall pix fmt, dev_setup_format (ow_device ow) pix = Some fmt ->
                   field fmt = V4L2_FIELD_INTERLACED_BT) ->
  DemuxOpen ow = Some (r, Some sys) ->
  Demux sys w = Some (ret, evs) -> Es_out_send es b ∈ evs ->
  Z.land (i_flags b) BLOCK_FLAG_BOTTOM_FIELD_FIRST
  = BLOCK_FLAG_BOTTOM_FIELD_FIRST.
Proof.
  intros Hnd Hfield Hopen Hdemux Hin.
  destruct (DemuxOpen_session _ _ _ Hopen)
    as (_ & sys0 & es0 & Hok & _ & Hbf & _).
  destruct (InitVideo_Ok_inv _ _ _ _ _ Hok)
    as (cap & sel & fmt & ar & _ & _ & _ & _ & Hfmt & _ & Hflags & _).
  rewrite (Hfield _ _ Hfmt), (InitVideo_interlacing_bottom_top _ _ Hnd)
    in Hflags.
  simpl in Hflags.
  destruct (Demux_sent_block _ _ _ _ _ _ Hdemux Hin)
    as (_ & _ & _ & _ & Hland & _).
  now rewrite Hbf, Hflags in Hland.
Qed.

End MoreCapture.

(** ** Further properties: [DemuxControl] and [GetPackedYuvOffsets] *)

Section MoreControl.
Context `{!vlc_h, !vlc_demux_h}.

(** Decides the comparisons of a query with the [case] labels. *)
Ltac query_cases :=
  repeat match goal with
         | |- context [?a =? ?b] =>
           first
             [ rewrite (Z.eqb_refl a)
             | rewrite (proj2 (Z.eqb_neq a b)) by congruence
             | destruct (Z.eqb_spec a b) as [->|?] ]
         end.

(** X22.  [DemuxControl] answers five queries and no other: it stores
    [false] for "can pause", "can seek" and "can control pace", 1000 times
    the inherited "live-caching" for the delay (the product being an
    [int64_t]) and [mdate ()] for the time; any other query returns
    [VLC_EGENERIC] and stores nothing.  No object other than the one the
    argument points to is ever written. *)
Theorem DemuxControl_answers
  (cw : control_world) (query arg : Z) (mem : gmap Z c_object) :
  NoDup DemuxControl_cases -> VLC_SUCCESS <> VLC_EGENERIC ->
  INT64_MIN <= 1000 * cw_live_caching cw <= INT64_MAX ->
  exists r mem',
    DemuxControl cw query arg mem = Some (r, mem')
    /\ (r = VLC_SUCCESS <-> query ∈ DemuxControl_cases)
    /\ (query ∈ [ DEMUX_CAN_PAUSE; DEMUX_CAN_SEEK; DEMUX_CAN_CONTROL_PACE ] ->
        mem' = <[arg := Obj_bool false]> mem)
    /\ (query = DEMUX_GET_PTS_DELAY ->
        mem' = <[arg := Obj_int64 (1000 * cw_live_caching cw)]> mem)
    /\ (query = DEMUX_GET_TIME ->
        mem' = <[arg := Obj_int64 (cw_mdate cw)]> mem)
    /\ (query ∉ DemuxControl_cases -> r = VLC_EGENERIC /\ mem' = mem)
    /\ (forall p, p <> arg -> mem' !! p = mem !! p).
Proof.
  intros Hnd Hse Hrange.
  assert (Hmul : int64_mul 1000 (cw_live_caching cw)
                 = Some (1000 * cw_live_caching cw)).
  { unfold int64_mul.
    rewrite (proj2 (Z.leb_le _ _) (proj1 Hrange)),
      (proj2 (Z.leb_le _ _) (proj2 Hrange)). done. }
  unfold DemuxControl. rewrite Hmul. simpl.
  unfold DemuxControl_cases in *.
  repeat match goal with
         | H : NoDup (_ :: _) |- _ => apply NoDup_cons in H as [? H]
         end.
  repeat match goal with
         | H : _ ∉ _ :: _ |- _ => apply not_elem_of_cons in H as [? H]
         end.
  assert (Hother : forall (o : c_object) p,
             p <> arg -> <[arg := o]> mem !! p = mem !! p).
  { intros o p Hp. now apply lookup_insert_ne. }
  query_cases; simpl; eexists _, _; (split; [reflexivity|]);
    rewrite !elem_of_cons, !elem_of_nil;
    intuition (try congruence); auto.
Qed.

End MoreControl.

Section MoreFilterPicture.
Context `{!vlc_h}.

(** X23.  Whenever [GetPackedYuvOffsets] succeeds, the offsets it stores
    describe one macropixel of four bytes: the two luma samples, at the Y
    offset and two bytes further, and the two chroma samples, at the U and V
    offsets, take the bytes 0 to 3, each byte once. *)
Theorem GetPackedYuvOffsets_macropixel
  (i_chroma i_y_offset i_u_offset i_v_offset : Z) (mem mem' : gmap Z Z) :
  VLC_SUCCESS <> VLC_EGENERIC ->
  i_y_offset <> i_u_offset -> i_y_offset <> i_v_offset ->
  i_u_offset <> i_v_offset ->
  GetPackedYuvOffsets i_chroma i_y_offset i_u_offset i_v_offset mem
  = (VLC_SUCCESS, mem') ->
  exists y u v,
    mem' !! i_y_offset = Some y
    /\ mem' !! i_u_offset = Some u
    /\ mem' !! i_v_offset = Some v
    /\ [y; y + 2; u; v] ≡ₚ [0; 1; 2; 3].
Proof.
  intros Hse Hyu Hyv Huv. unfold GetPackedYuvOffsets.
  pose proof (offsets_written_insert mem _ _ _ 1 0 2 Hyu Hyv Huv)
    as (Hy1 & Hu1 & Hv1 & _).
  pose proof (offsets_written_insert mem _ _ _ 0 1 3 Hyu Hyv Huv)
    as (Hy2 & Hu2 & Hv2 & _).
  pose proof (offsets_written_insert mem _ _ _ 0 3 1 Hyu Hyv Huv)
    as (Hy3 & Hu3 & Hv3 & _).
  destruct (_ || _).
  { intros [= <-]. exists 1, 0, 2. do 3 (split; [done|]).
    apply (bool_decide_unpack _). vm_compute. exact I. }
  destruct (_ || _).
  { intros [= <-]. exists 0, 1, 3. do 3 (split; [done|]).
    apply (bool_decide_unpack _). vm_compute. exact I. }
  destruct (_ =? _).
  { intros [= <-]. exists 0, 3, 1. do 3 (split; [done|]).
    apply (bool_decide_unpack _). vm_compute. exact I. }
  intros [= Hbad _]. congruence.
Qed.

End MoreFilterPicture.

(** ** Further examples on the concrete build *)

Section MoreExamples.
#[local] Existing Instance linux_videodev2_h.
#[local] Existing Instance vlc2_h.
#[local] Existing Instance linux_lp64.
#[local] Existing Instance vlc2_demux_h.

Lemma vlc_from_v4l2_fourcc_first_witness :
  vlc_from_v4l2_fourcc V4L2_PIX_FMT_BGR24 = Some 14%nat
  /\ (14 < Datatypes.length v4l2_fmts)%nat
  /\ v4l2 (fmt_at 14) = V4L2_PIX_FMT_BGR24
  /\ forall j, (j < 14)%nat -> v4l2 (fmt_at j) <> V4L2_PIX_FMT_BGR24.
Proof.
  split; [reflexivity|].
  exact (vlc_from_v4l2_fourcc_first V4L2_PIX_FMT_BGR24 14 eq_refl).
Defined.

Lemma vlc_from_v4l2_fourcc_row_witness :
  NoDup (v4l2 <$> v4l2_fmts)
  /\ (14 < Datatypes.length v4l2_fmts)%nat
  /\ vlc_from_v4l2_fourcc (v4l2 (fmt_at 14)) = Some 14%nat
  /\ vlc_v4l2_fmt_rank (vlc_from_v4l2_fourcc (v4l2 (fmt_at 14))) = 14.
Proof.
  assert (Hnd : NoDup (v4l2 <$> v4l2_fmts))
    by (apply (bool_decide_unpack _); vm_compute; exact I).
  assert (Hlt : (14 < Datatypes.length v4l2_fmts)%nat) by (vm_compute; lia).
  split; [exact Hnd|]. split; [exact Hlt|].
  exact (vlc_from_v4l2_fourcc_row 14 Hnd Hlt).
Defined.

Lemma InitVideo_negotiate_enumerated_witness :
  let codecs :=
    [ emulated_fmt V4L2_PIX_FMT_YVYU; native_fmt V4L2_PIX_FMT_YUV422P;
      emulated_fmt V4L2_PIX_FMT_YVU420 ] in
  InitVideo_negotiate 0 codecs = Some 2%nat
  /\ (2 < Datatypes.length v4l2_fmts)%nat
  /\ exists c, c ∈ codecs
       /\ vlc_from_v4l2_fourcc (pixelformat c) = Some 2%nat
       /\ v4l2 (fmt_at 2) = pixelformat c.
Proof.
  intros codecs. split; [reflexivity|].
  exact (InitVideo_negotiate_enumerated 0 codecs 2 eq_refl).
Defined.

Lemma InitVideo_negotiate_fails_iff_witness :
  let codecs := [ native_fmt (v4l2_fourcc "B" "A" "8" "1") ] in
  65535 <= SIZE_MAX
  /\ (InitVideo_negotiate VLC_CODEC_I420 codecs = None <->
      Forall (fun c => vlc_from_v4l2_fourcc (pixelformat c) = None) codecs).
Proof.
  intros codecs.
  assert (Hmax : 65535 <= SIZE_MAX) by (vm_compute; discriminate).
  split; [exact Hmax|].
  exact (InitVideo_negotiate_fails_iff VLC_CODEC_I420 codecs Hmax).
Defined.

Lemma InitVideo_negotiate_unmatched_request_witness :
  let codecs :=
    [ emulated_fmt V4L2_PIX_FMT_YVYU; native_fmt V4L2_PIX_FMT_YUV422P ] in
  catalog_codecs_nonzero
  /\ Forall (fun c => matches_request VLC_CODEC_GREY c = false) codecs
  /\ InitVideo_negotiate VLC_CODEC_GREY codecs =
     InitVideo_negotiate (var_InheritFourCC None) codecs.
Proof.
  intros codecs.
  assert (Hnz : catalog_codecs_nonzero)
    by (apply (bool_decide_unpack _); vm_compute; exact I).
  assert (Hno : Forall (fun c => matches_request VLC_CODEC_GREY c = false)
                  codecs) by (repeat constructor).
  split; [exact Hnz|]. split; [exact Hno|].
  exact (InitVideo_negotiate_unmatched_request VLC_CODEC_GREY codecs Hnz Hno).
Defined.

Lemma InitVideo_format_enumerated_witness :
  let dev := example_device 0x05000001 [native_fmt V4L2_PIX_FMT_RGB24] 1 in
  let cfg := {| cfg_chroma := None; cfg_aspect_ratio := None |} in
  let res := ok_or (calloc_sys, zero_es) (InitVideo dev cfg calloc_sys) in
  InitVideo dev cfg calloc_sys = Ok (res.1, res.2)
  /\ exists c d fmt,
       c ∈ dev_enum_fmt dev
       /\ vlc_from_v4l2_fourcc (pixelformat c) = Some d
       /\ dev_setup_format dev (pixelformat c) = Some fmt
       /\ i_codec res.2 = vlc (fmt_at d)
       /\ i_width res.2 = width fmt
       /\ i_frame_rate res.2 = timeperframe_denominator fmt
       /\ i_frame_rate_base res.2 = timeperframe_numerator fmt.
Proof.
  intros dev cfg res.
  assert (Hok : InitVideo dev cfg calloc_sys = Ok (res.1, res.2))
    by reflexivity.
  split; [exact Hok|].
  exact (InitVideo_format_enumerated dev cfg calloc_sys res.1 res.2 Hok).
Defined.

Lemma InitVideo_masks_disjoint_witness :
  let dev := example_device 0x05000001 [native_fmt V4L2_PIX_FMT_RGB24] 1 in
  let cfg := {| cfg_chroma := None; cfg_aspect_ratio := None |} in
  let res := ok_or (calloc_sys, zero_es) (InitVideo dev cfg calloc_sys) in
  InitVideo dev cfg calloc_sys = Ok (res.1, res.2)
  /\ i_rmask res.2 = 0x0000FF
  /\ masks_disjoint (i_rmask res.2) (i_gmask res.2) (i_bmask res.2).
Proof.
  intros dev cfg res.
  assert (Hok : InitVideo dev cfg calloc_sys = Ok (res.1, res.2))
    by reflexivity.
  split; [exact Hok|]. split; [reflexivity|].
  exact (InitVideo_masks_disjoint dev cfg calloc_sys res.1 res.2 Hok).
Defined.

Lemma InitVideo_sar_square_witness :
  0 < VOUT_ASPECT_FACTOR
  /\ 4 * VOUT_ASPECT_FACTOR <= INT_MAX
  /\ (3 | VOUT_ASPECT_FACTOR)
  /\ 3 * 640 = 4 * 480
  /\ exists ar, InitVideo_aspect None = Some ar
       /\ InitVideo_sar_num ar 480 = InitVideo_sar_den 640.
Proof.
  assert (Hpos : 0 < VOUT_ASPECT_FACTOR) by reflexivity.
  assert (Hmax : 4 * VOUT_ASPECT_FACTOR <= INT_MAX)
    by (vm_compute; discriminate).
  assert (Hdiv : (3 | VOUT_ASPECT_FACTOR)) by (exists 144000; reflexivity).
  split; [exact Hpos|]. split; [exact Hmax|]. split; [exact Hdiv|].
  split; [reflexivity|].
  exact (proj1 (InitVideo_sar_square 640 480 Hpos Hmax) Hdiv eq_refl).
Defined.

Lemma DemuxOpen_result_witness :
  let w :=
    example_open 0x05000001 [native_fmt V4L2_PIX_FMT_YUYV] 1 None in
  VLC_SUCCESS <> VLC_ENOMEM
  /\ VLC_SUCCESS <> VLC_EGENERIC
  /\ DemuxOpen w = Some (VLC_SUCCESS, Some mmap_session)
  /\ i_fd mmap_session = 3
  /\ controls mmap_session = ow_controls w.
Proof.
  intros w.
  assert (Hmem : VLC_SUCCESS <> VLC_ENOMEM) by discriminate.
  assert (Hgen : VLC_SUCCESS <> VLC_EGENERIC) by discriminate.
  assert (Hopen : DemuxOpen w = Some (VLC_SUCCESS, Some mmap_session))
    by reflexivity.
  split; [exact Hmem|]. split; [exact Hgen|]. split; [exact Hopen|].
  destruct (DemuxOpen_result w _ _ Hmem Hgen Hopen) as (_ & _ & Hsys).
  destruct (Hsys mmap_session eq_refl) as (_ & _ & _ & Hfd & Hctl).
  split; [exact Hfd | exact Hctl].
Defined.

Lemma DemuxOpen_session_buffers_witness :
  let w :=
    example_open 0x05000001 [native_fmt V4L2_PIX_FMT_YUYV] 1 None in
  DemuxOpen w = Some (VLC_SUCCESS, Some mmap_session)
  /\ exists bufs,
       dev_init_mmap (ow_device w) = Some bufs
       /\ p_buffers mmap_session = Some bufs
       /\ i_nbuffers mmap_session = Datatypes.length bufs
       /\ forallb (dev_qbuf (ow_device w)) (seq 0 (Datatypes.length bufs))
          = true
       /\ dev_streamon (ow_device w) = true.
Proof.
  intros w. split; [reflexivity|].
  exact (DemuxOpen_session_buffers w VLC_SUCCESS mmap_session eq_refl).
Defined.

Lemma DemuxClose_after_open_read_witness :
  let w :=
    example_open 0x01000001 [native_fmt V4L2_PIX_FMT_YUYV] 1 None in
  DemuxOpen w = Some (VLC_SUCCESS, Some read_session)
  /\ io read_session = IO_METHOD_READ
  /\ DemuxClose read_session =
     [ Ev_controls_deinit; Ev_close 3; Ev_free_sys ].
Proof.
  intros w. split; [reflexivity|]. split; [reflexivity|].
  exact (DemuxClose_after_open_read w VLC_SUCCESS read_session
           eq_refl eq_refl).
Defined.

Lemma DemuxClose_after_open_mmap_witness :
  let w :=
    example_open 0x05000001 [native_fmt V4L2_PIX_FMT_YUYV] 1 None in
  DemuxOpen w = Some (VLC_SUCCESS, Some mmap_session)
  /\ io mmap_session = IO_METHOD_MMAP
  /\ exists bufs,
       dev_init_mmap (ow_device w) = Some bufs
       /\ munmaps (DemuxClose mmap_session) = seq 0 (Datatypes.length bufs)
       /\ dqbufs (DemuxClose mmap_session) = Datatypes.length bufs.
Proof.
  intros w. split; [reflexivity|]. split; [reflexivity|].
  exact (DemuxClose_after_open_mmap w VLC_SUCCESS mmap_session
           eq_refl eq_refl).
Defined.

Lemma Demux_return_values_witness :
  let sent :=
    {| i_buffer := 691200; i_pts := 1000000; i_dts := 1000000;
       i_flags := 1 |} in
  let evs := [ Es_out_set_pcr 1000000; Es_out_send (Some 0%nat) sent ] in
  Demux mmap_session (ready_world None (-1) 0) = Some (1, evs)
  /\ ((1 = -1 /\ evs = [Msg_poll_error])
      \/ (1 = 1 /\ (Msg_poll_error ∉ evs)
          /\ (Datatypes.length (sent_blocks evs) <= 1)%nat)).
Proof.
  intros sent evs. split; [reflexivity|].
  exact (Demux_return_values mmap_session (ready_world None (-1) 0) 1 evs
           eq_refl).
Defined.

Lemma Demux_sent_block_witness :
  let sent :=
    {| i_buffer := 691200; i_pts := 1000000; i_dts := 1000000;
       i_flags := 0x4001 |} in
  let evs := [ Es_out_set_pcr 1000000; Es_out_send (Some 0%nat) sent ] in
  Demux bottom_top_session (ready_world None (-1) 0) = Some (1, evs)
  /\ Es_out_send (Some 0%nat) sent ∈ evs
  /\ i_pts sent = 1000000 /\ i_dts sent = 1000000
  /\ Z.land (i_flags sent) 0x4000 = 0x4000.
Proof.
  intros sent evs.
  assert (Hin : Es_out_send (Some 0%nat) sent ∈ evs) by (repeat constructor).
  split; [reflexivity|]. split; [exact Hin|].
  destruct (Demux_sent_block bottom_top_session (ready_world None (-1) 0)
              1 evs (Some 0%nat) sent eq_refl Hin)
    as (_ & _ & Hpts & Hdts & Hflags & _).
  split; [exact Hpts|]. split; [exact Hdts | exact Hflags].
Defined.

Lemma Demux_read_mode_witness :
  let w :=
    ready_world (Some {| i_buffer := 0; i_pts := 0; i_dts := 0;
                         i_flags := 0 |}) (-1) 5 in
  io read_session = IO_METHOD_READ
  /\ poll_ret {| poll_ret := 1; poll_errno := 0; poll_revents := 1 |} <> -1
  /\ poll_revents {| poll_ret := 1; poll_errno := 0; poll_revents := 1 |}
     <> 0
  /\ exists evs,
       Demux read_session w = Some (1, evs) /\ evs = [Msg_cannot_read].
Proof.
  intros w.
  assert (Hret : poll_ret {| poll_ret := 1; poll_errno := 0;
                             poll_revents := 1 |} <> -1) by discriminate.
  assert (Hrev : poll_revents {| poll_ret := 1; poll_errno := 0;
                                 poll_revents := 1 |} <> 0) by discriminate.
  split; [reflexivity|]. split; [exact Hret|]. split; [exact Hrev|].
  exact (Demux_read_mode read_session w _ [] eq_refl eq_refl Hret Hrev).
Defined.

Lemma Demux_after_open_bottom_first_witness :
  let ow :=
    example_open 0x05000001 [native_fmt V4L2_PIX_FMT_YUYV]
      V4L2_FIELD_INTERLACED_BT None in
  let sent :=
    {| i_buffer := 691200; i_pts := 1000000; i_dts := 1000000;
       i_flags := 0x4001 |} in
  let evs := [ Es_out_set_pcr 1000000; Es_out_send (Some 0%nat) sent ] in
  NoDup v4l2_field_cases
  /\ (forall pix fmt, dev_setup_format (ow_device ow) pix = Some fmt ->
                      field fmt = V4L2_FIELD_INTERLACED_BT)
  /\ DemuxOpen ow = Some (VLC_SUCCESS, Some bottom_top_session)
  /\ Demux bottom_top_session (ready_world None (-1) 0) = Some (1, evs)
  /\ Es_out_send (Some 0%nat) sent ∈ evs
  /\ Z.land (i_flags sent) BLOCK_FLAG_BOTTOM_FIELD_FIRST
     = BLOCK_FLAG_BOTTOM_FIELD_FIRST.
Proof.
  intros ow sent evs.
  assert (Hnd : NoDup v4l2_field_cases)
    by (apply (bool_decide_unpack _); vm_compute; exact I).
  assert (Hfield : forall pix fmt,
             dev_setup_format (ow_device ow) pix = Some fmt ->
             field fmt = V4L2_FIELD_INTERLACED_BT).
  { intros pix fmt Hfmt. injection Hfmt as <-. reflexivity. }
  assert (Hin : Es_out_send (Some 0%nat) sent ∈ evs) by (repeat constructor).
  split; [exact Hnd|]. split; [exact Hfield|]. split; [reflexivity|].
  split; [reflexivity|]. split; [exact Hin|].
  exact (Demux_after_open_bottom_first ow VLC_SUCCESS bottom_top_session
           (ready_world None (-1) 0) 1 evs (Some 0%nat) sent
           Hnd Hfield eq_refl eq_refl Hin).
Defined.

Lemma DemuxControl_answers_witness :
  let cw := {| cw_live_caching := 300; cw_mdate := 1000000 |} in
  NoDup DemuxControl_cases
  /\ VLC_SUCCESS <> VLC_EGENERIC
  /\ INT64_MIN <= 1000 * cw_live_caching cw <= INT64_MAX
  /\ exists r mem',
       DemuxControl cw DEMUX_GET_PTS_DELAY 64 ∅ = Some (r, mem')
       /\ r = VLC_SUCCESS
       /\ mem' = <[64 := Obj_int64 300000]> ∅.
Proof.
  intros cw.
  assert (Hnd : NoDup DemuxControl_cases)
    by (apply (bool_decide_unpack _); vm_compute; exact I).
  assert (Hse : VLC_SUCCESS <> VLC_EGENERIC) by discriminate.
  assert (Hrange : INT64_MIN <= 1000 * cw_live_caching cw <= INT64_MAX)
    by (vm_compute; split; discriminate).
  split; [exact Hnd|]. split; [exact Hse|]. split; [exact Hrange|].
  destruct (DemuxControl_answers cw DEMUX_GET_PTS_DELAY 64 ∅
              Hnd Hse Hrange)
    as (r & mem' & Hrun & Hok & _ & Hdelay & _).
  exists r, mem'. split; [exact Hrun|]. split.
  - apply Hok. repeat constructor.
  - exact (Hdelay eq_refl).
Defined.

Lemma GetPackedYuvOffsets_macropixel_witness :
  let r := GetPackedYuvOffsets (VLC_FOURCC "Y" "U" "Y" "2") 100 104 108 ∅ in
  VLC_SUCCESS <> VLC_EGENERIC
  /\ r = (VLC_SUCCESS, r.2)
  /\ exists y u v,
       r.2 !! 100 = Some y /\ r.2 !! 104 = Some u /\ r.2 !! 108 = Some v
       /\ [y; y + 2; u; v] ≡ₚ [0; 1; 2; 3].
Proof.
  intros r.
  assert (Hse : VLC_SUCCESS <> VLC_EGENERIC) by discriminate.
  assert (Hyu : (100 : Z) <> 104) by discriminate.
  assert (Hyv : (100 : Z) <> 108) by discriminate.
  assert (Huv : (104 : Z) <> 108) by discriminate.
  assert (Hrun : r = (VLC_SUCCESS, r.2)) by reflexivity.
  split; [exact Hse|]. split; [exact Hrun|].
  exact (GetPackedYuvOffsets_macropixel _ 100 104 108 ∅ r.2
           Hse Hyu Hyv Huv Hrun).
Defined.

End MoreExamples.
